(** * The exception layer of m1n1 (src/exception.c)

    A shallow embedding of the synchronous exception handler [exc_sync], of
    the fault reporter [print_regs] and of the lookup tables they use,
    followed by the properties of the guard engine and of the hypervisor trap
    relay.

    The handler is C code that reads and writes system registers, a register
    context, two global variables and the console; it is embedded in a small
    state monad whose results also record the two ways in which control
    leaves the straight-line path: a [return] statement and the call of
    [flush_and_reboot], which never comes back. *)

From Stdlib Require Import ZArith List String Bool Lia.
Import ListNotations.

Local Open Scope string_scope.
Local Open Scope Z_scope.

(** ** Machine integers *)

(** The value of a [u64] expression: arithmetic modulo [2^64]. *)
Definition u64 (z : Z) : Z := z mod 2 ^ 64.

Definition INT_MAX : Z := 2 ^ 31 - 1.

(** The value an [int] holds after a 32-bit two's complement result is
    stored in it. *)
Definition s32 (z : Z) : Z := (z + 2 ^ 31) mod 2 ^ 32 - 2 ^ 31.

(** ** Diagnostic decoder: the label tables

    The tables of the source are arrays of string pointers filled by
    designated initialisers; the entries no initialiser names are null. *)

(** The array of [n] pointers all null. *)
Definition null_table (n : nat) : list (option string) := repeat None n.

(** [[i] = s] on an array: the entry at [i] is replaced, an index past the
    end is not part of the array (the compiler rejects it). *)
Fixpoint assign (i : nat) (s : string) (t : list (option string)) :
  list (option string) :=
  match t, i with
  | [], _ => []
  | _ :: t', O => Some s :: t'
  | x :: t', S i' => x :: assign i' s t'
  end.

(** The array a list of designated initialisers builds, the initialisers
    taken in the order they are written. *)
Definition designated (n : nat) (inits : list (Z * string)) :
  list (option string) :=
  fold_left (fun t e => assign (Z.to_nat (fst e)) (snd e) t) inits
            (null_table n).

(** [t[i]] for an index the masks of the callers keep non-negative. *)
Definition at_index (t : list (option string)) (i : Z) : option string :=
  nth (Z.to_nat i) t None.

Definition m_table_init : list (Z * string) :=
  [ (0x00, "EL0t");
    (0x04, "EL1t");
    (0x05, "EL1h");
    (0x08, "EL2t");
    (0x09, "EL2h") ].

Definition m_table : list (option string) := designated 0x10 m_table_init.

Definition gl_m_table_init : list (Z * string) :=
  [ (0x00, "GL0t");
    (0x04, "GL1t");
    (0x05, "GL1h");
    (0x08, "GL2t");
    (0x09, "GL2h") ].

Definition gl_m_table : list (option string) := designated 0x10 gl_m_table_init.

Definition ec_table_init : list (Z * string) :=
  [ (0x00, "unknown");
    (0x01, "wf*");
    (0x03, "c15 mcr/mrc");
    (0x04, "c15 mcrr/mrrc");
    (0x05, "c14 mcr/mrc");
    (0x06, "ldc/stc");
    (0x07, "FP off");
    (0x08, "VMRS access");
    (0x09, "PAC off");
    (0x0a, "ld/st64b");
    (0x0c, "c14 mrrc");
    (0x0d, "branch target");
    (0x0e, "illegal state");
    (0x11, "svc in a32");
    (0x12, "hvc in a32");
    (0x13, "smc in a32");
    (0x15, "svc in a64");
    (0x16, "hvc in a64");
    (0x17, "smc in a64");
    (0x18, "other mcr/mrc/sys");
    (0x19, "SVE off");
    (0x1a, "eret");
    (0x1c, "PAC failure");
    (0x20, "instruction abort (lower)");
    (0x21, "instruction abort (current)");
    (0x22, "pc misaligned");
    (0x24, "data abort (lower)");
    (0x25, "data abort (current)");
    (0x26, "sp misaligned");
    (0x28, "FP exception (a32)");
    (0x2c, "FP exception (a64)");
    (0x2f, "SError");
    (0x30, "BP (lower)");
    (0x31, "BP (current)");
    (0x32, "step (lower)");
    (0x33, "step (current)");
    (0x34, "watchpoint (lower)");
    (0x35, "watchpoint (current)");
    (0x38, "bkpt (a32)");
    (0x3a, "vector catch (a32)");
    (0x3c, "brk (a64)") ].

Definition ec_table : list (option string) := designated 0x40 ec_table_init.

(** The exception class of a syndrome value: [(esr >> 26) & 0x3f]. *)
Definition exception_class (esr : Z) : Z := Z.land (Z.shiftr esr 26) 0x3f.

(** The selector nibble of a saved status value: [spsr & 0xf]. *)
Definition spsr_mode (spsr : Z) : Z := Z.land spsr 0xf.

(** What [print_regs] passes to [%s] for a syndrome value:
    [ec_desc ? ec_desc : "?"]. *)
Definition ec_desc_shown (esr : Z) : string :=
  match at_index ec_table (exception_class esr) with
  | Some ec_desc => ec_desc
  | None => "?"
  end.

(** *** The tables against their initialisers *)

(** The first initialiser for an index, as an association list gives it. *)
Fixpoint assoc (i : Z) (l : list (Z * string)) : option string :=
  match l with
  | [] => None
  | (k, s) :: l' => if k =? i then Some s else assoc i l'
  end.

Definition option_string_eqb (a b : option string) : bool :=
  match a, b with
  | Some s, Some t => String.eqb s t
  | None, None => true
  | _, _ => false
  end.

(** How often an index is named by the initialisers. *)
Definition named (i : Z) (l : list (Z * string)) : nat :=
  List.length (filter (fun e => fst e =? i) l).

(** The check of one index of the class table: the array agrees with the
    initialisers, which name the index once at most, and its entry is not
    the question mark. *)
Definition ec_entry_ok (n : nat) : bool :=
  let i := Z.of_nat n in
  option_string_eqb (at_index ec_table i) (assoc i ec_table_init)
  && (named i ec_table_init <=? 1)%nat
  && negb (option_string_eqb (at_index ec_table i) (Some "?")).

(** ** The machine the handlers run on *)

(** The three suffixes under which the handlers name a banked register. *)
Inductive bank : Set := EL1 | EL2 | EL12.

(** The system registers the source names. *)
Inductive sysreg : Set :=
| SPSR (b : bank)
| ELR (b : bank)
| ESR (b : bank)
| FAR (b : bank)
| MPIDR_EL1
| CurrentEL
| SYS_IMP_APL_ASPSR_GL1
| SYS_IMP_APL_L2C_ERR_STS
| SYS_IMP_APL_L2C_ERR_ADR
| SYS_IMP_APL_L2C_ERR_INF
| SYS_IMP_APL_E_LSU_ERR_STS
| SYS_IMP_APL_E_FED_ERR_STS
| SYS_IMP_APL_E_MMU_ERR_STS
| SYS_IMP_APL_LSU_ERR_STS
| SYS_IMP_APL_FED_ERR_STS
| SYS_IMP_APL_MMU_ERR_STS.

Abbreviation SPSR_EL1 := (SPSR EL1).
Abbreviation SPSR_EL2 := (SPSR EL2).
Abbreviation SPSR_EL12 := (SPSR EL12).
Abbreviation ELR_EL1 := (ELR EL1).
Abbreviation ELR_EL2 := (ELR EL2).
Abbreviation ELR_EL12 := (ELR EL12).
Abbreviation ESR_EL1 := (ESR EL1).
Abbreviation ESR_EL2 := (ESR EL2).
Abbreviation ESR_EL12 := (ESR EL12).
Abbreviation FAR_EL1 := (FAR EL1).
Abbreviation FAR_EL12 := (FAR EL12).

Definition bank_eq_dec (a b : bank) : {a = b} + {a <> b}.
Proof. decide equality. Defined.

Definition sysreg_eq_dec (a b : sysreg) : {a = b} + {a <> b}.
Proof. decide equality; apply bank_eq_dec. Defined.

(** An argument of a [printf] call. *)
Inductive parg : Set :=
| Int (v : Z)          (* an integer, for [%x], [%lx], [%016lx], [%d] *)
| Str (s : string)     (* a string, for [%s] *)
| Ptr (p : Z).         (* a pointer, for [%p] *)

(** What reaches the console: the calls of [printf] with their format and
    arguments, and the calls of [uart_puts]. *)
Inductive out : Set :=
| Printf (fmt : string) (args : list parg)
| Puts (s : string).

Record machine : Type := mkMachine {
  sysregs : sysreg -> Z;   (* the register cells *)
  cur_el2 : bool;          (* what [in_el2()] answers *)
  cur_gl12 : bool;         (* what [in_gl12()] answers *)
  ecore : bool;            (* what [is_ecore()] answers *)
  mem32 : Z -> Z;          (* what [read32] reads at an address *)
  ctx : Z -> Z;            (* the quadwords [regs[i]] of the register context *)
  exc_guard : Z;           (* [volatile enum exc_guard_t exc_guard] *)
  exc_count : Z;           (* [volatile int exc_count] *)
  console : list out       (* the output so far, oldest first *)
}.

(** A register file with one cell rewritten, and a context with one slot
    rewritten. *)
Definition upd_reg (f : sysreg -> Z) (c : sysreg) (v : Z) : sysreg -> Z :=
  fun r => if sysreg_eq_dec r c then v else f r.

Definition upd_slot (f : Z -> Z) (i v : Z) : Z -> Z :=
  fun j => if j =? i then v else f j.

Definition set_sysregs (f : sysreg -> Z) (m : machine) : machine :=
  mkMachine f (cur_el2 m) (cur_gl12 m) (ecore m) (mem32 m) (ctx m)
            (exc_guard m) (exc_count m) (console m).

Definition set_ctx (f : Z -> Z) (m : machine) : machine :=
  mkMachine (sysregs m) (cur_el2 m) (cur_gl12 m) (ecore m) (mem32 m) f
            (exc_guard m) (exc_count m) (console m).

Definition set_exc_guard (g : Z) (m : machine) : machine :=
  mkMachine (sysregs m) (cur_el2 m) (cur_gl12 m) (ecore m) (mem32 m) (ctx m)
            g (exc_count m) (console m).

Definition set_exc_count (c : Z) (m : machine) : machine :=
  mkMachine (sysregs m) (cur_el2 m) (cur_gl12 m) (ecore m) (mem32 m) (ctx m)
            (exc_guard m) c (console m).

Definition emit (o : out) (m : machine) : machine :=
  mkMachine (sysregs m) (cur_el2 m) (cur_gl12 m) (ecore m) (mem32 m) (ctx m)
            (exc_guard m) (exc_count m) (console m ++ [o]).

(** ** The handler monad *)

(** How a statement ends: control falls to the next statement with a value,
    a [return] leaves the handler, or the machine is rebooted and control
    never comes back. *)
Inductive result (A : Type) : Type :=
| Next (a : A) (m : machine)
| Done (m : machine)
| Halt (m : machine).

Arguments Next {A} a m.
Arguments Done {A} m.
Arguments Halt {A} m.

Definition M (A : Type) : Type := machine -> result A.

Definition pure {A} (a : A) : M A := fun m => Next a m.

Definition bind {A B} (c : M A) (k : A -> M B) : M B :=
  fun m =>
    match c m with
    | Next a m' => k a m'
    | Done m' => Done m'
    | Halt m' => Halt m'
    end.

Declare Scope handler_scope.
Delimit Scope handler_scope with handler.
Bind Scope handler_scope with M.

Notation "x <- c1 ;; c2" := (bind c1 (fun x => c2))
  (at level 61, c1 at next level, right associativity) : handler_scope.
Notation "c1 ;; c2" := (bind c1 (fun _ => c2))
  (at level 61, right associativity) : handler_scope.

Local Open Scope handler_scope.

(** The C statement [return;]. *)
Definition ret_void {A} : M A := fun m => Done m.

(** [if (c) stmt;] *)
Definition when (c : bool) (stmt : M unit) : M unit :=
  if c then stmt else pure tt.

(** The machine the handler leaves behind, however it ended. *)
Definition final {A} (r : result A) : machine :=
  match r with Next _ m | Done m | Halt m => m end.

(** The handler left by a [return] statement. *)
Definition returned_early {A} (r : result A) : bool :=
  match r with Done _ => true | _ => false end.

(** The handler came back to the vector table, by a [return] or by reaching
    the end of its body. *)
Definition returns {A} (r : result A) : bool :=
  match r with Halt _ => false | _ => true end.

(** ** The handlers of exception.c *)

(** What exception.c takes from its headers and from the linker. *)
Class Platform : Type := {
  (** Which register cell a suffix reaches.  With [HCR_EL2.E2H] set, as
      [exception_initialize] sets it when the core runs at EL2, the names
      ending in [_EL1] reach the EL2 registers and the names ending in
      [_EL12] reach the EL1 registers; at EL1 every name reaches its own
      register.  The handlers are embedded for every such redirection. *)
  redirect : bank -> bank;
  (** The return thunks and the load base: addresses fixed when the image
      is linked. *)
  el0_ret : Z;
  el1_ret : Z;
  _base : Z;
  (** The enumerators of [enum exc_guard_t], declared in exception.h. *)
  GUARD_OFF : Z;
  GUARD_SKIP : Z;
  GUARD_MARK : Z;
  GUARD_RETURN : Z;
  GUARD_TYPE_MASK : Z;
  GUARD_SILENT : Z
}.

Section Handlers.

Context {P : Platform}.

Definition cell (r : sysreg) : sysreg :=
  match r with
  | SPSR b => SPSR (redirect b)
  | ELR b => ELR (redirect b)
  | ESR b => ESR (redirect b)
  | FAR b => FAR (redirect b)
  | _ => r
  end.

(** [mrs(r)] and [msr(r, v)]. *)
Definition mrs (r : sysreg) : M Z :=
  fun m => Next (sysregs m (cell r)) m.

Definition msr (r : sysreg) (v : Z) : M unit :=
  fun m =>
    Next tt (set_sysregs (upd_reg (sysregs m) (cell r) v) m).

(** [sysop("isb")], [sysop("dsb sy")]: barriers, which order the accesses
    and change none of the state modelled here. *)
Definition sysop (insn : string) : M unit := pure tt.

Definition in_el2 : M bool := fun m => Next (cur_el2 m) m.
Definition in_gl12 : M bool := fun m => Next (cur_gl12 m) m.
Definition is_ecore : M bool := fun m => Next (ecore m) m.

Definition read32 (addr : Z) : M Z := fun m => Next (mem32 m addr) m.

(** [regs[i]] read and written. *)
Definition regs_load (i : Z) : M Z := fun m => Next (ctx m i) m.

Definition regs_store (i v : Z) : M unit :=
  fun m => Next tt (set_ctx (upd_slot (ctx m) i v) m).

(** Reads and writes of the two volatile globals. *)
Definition load_exc_guard : M Z := fun m => Next (exc_guard m) m.
Definition store_exc_guard (g : Z) : M unit :=
  fun m => Next tt (set_exc_guard g m).
Definition load_exc_count : M Z := fun m => Next (exc_count m) m.
Definition store_exc_count (c : Z) : M unit :=
  fun m => Next tt (set_exc_count c m).

Definition printf (fmt : string) (args : list parg) : M unit :=
  fun m => Next tt (emit (Printf fmt args) m).

Definition uart_puts (s : string) : M unit :=
  fun m => Next tt (emit (Puts s) m).

(** Modelled from the spec: [flush_and_reboot] is declared in utils.h and
    defined outside exception.c; the spec has it flush the diagnostics and
    halt and restart the machine, so nothing after the call runs. *)
Definition flush_and_reboot {A} : M A := fun m => Halt m.

(** [c1 && c2] with the second operand evaluated only when the first
    holds. *)
Definition andM (c1 c2 : M bool) : M bool :=
  b <- c1;; if b then c2 else pure false.

Definition notM (c : M bool) : M bool := b <- c;; pure (negb b).

(** [!(exc_guard & GUARD_SILENT)] *)
Definition not_silent : M bool :=
  g <- load_exc_guard;; pure (Z.land g GUARD_SILENT =? 0).

Definition get_exception_source (el12 : bool) : M string :=
  spsr <- (if el12 then mrs SPSR_EL12 else mrs SPSR_EL1);;
  gl <- in_gl12;;
  aspsr <- (if gl then mrs SYS_IMP_APL_ASPSR_GL1 else pure 0);;
  let m_desc :=
    if negb (Z.land aspsr 1 =? 0)
    then at_index gl_m_table (Z.land spsr 0xf)
    else at_index m_table (Z.land spsr 0xf) in
  pure (match m_desc with Some s => s | None => "?" end).

Definition get_exception_level : M string :=
  lvl <- mrs CurrentEL;;
  gl <- in_gl12;;
  pure (if gl
        then (if lvl =? 0x04 then "GL1" else if lvl =? 0x08 then "GL2" else "?")
        else (if lvl =? 0x04 then "EL1" else if lvl =? 0x08 then "EL2" else "?")).

(** The quadwords [regs[i]] of the listed slots, read in turn, as [printf]
    arguments. *)
Fixpoint regs_args (slots : list Z) : M (list parg) :=
  match slots with
  | [] => pure []
  | i :: slots' =>
      v <- regs_load i;;
      l <- regs_args slots';;
      pure (Int v :: l)
  end.

Definition print_regs (regs : Z) (el12 : bool) : M unit :=
  let sp := u64 (regs + 256) in
  spsr <- (if el12 then mrs SPSR_EL12 else mrs SPSR_EL1);;
  src <- get_exception_source el12;;
  printf "Exception taken from %s\n" [Str src];;
  lvl <- get_exception_level;;
  printf "Running in %s\n" [Str lvl];;
  mpidr <- mrs MPIDR_EL1;;
  printf "MPIDR: 0x%lx\n" [Int mpidr];;
  printf "Registers: (@%p)\n" [Ptr regs];;
  x0 <- regs_args [0; 1; 2; 3];;
  printf "  x0-x3: %016lx %016lx %016lx %016lx\n" x0;;
  x4 <- regs_args [4; 5; 6; 7];;
  printf "  x4-x7: %016lx %016lx %016lx %016lx\n" x4;;
  x8 <- regs_args [8; 9; 10; 11];;
  printf " x8-x11: %016lx %016lx %016lx %016lx\n" x8;;
  x12 <- regs_args [12; 13; 14; 15];;
  printf "x12-x15: %016lx %016lx %016lx %016lx\n" x12;;
  x16 <- regs_args [16; 17; 18; 19];;
  printf "x16-x19: %016lx %016lx %016lx %016lx\n" x16;;
  x20 <- regs_args [20; 21; 22; 23];;
  printf "x20-x23: %016lx %016lx %016lx %016lx\n" x20;;
  x24 <- regs_args [24; 25; 26; 27];;
  printf "x24-x27: %016lx %016lx %016lx %016lx\n" x24;;
  x28 <- regs_args [28; 29; 30];;
  printf "x28-x30: %016lx %016lx %016lx\n" x28;;
  elr <- (if el12 then mrs ELR_EL12 else mrs ELR_EL1);;
  esr <- (if el12 then mrs ESR_EL12 else mrs ESR_EL1);;
  printf "PC:       0x%lx (rel: 0x%lx)\n" [Int elr; Int (u64 (elr - _base))];;
  printf "SP:       0x%lx\n" [Int sp];;
  printf "SPSR_EL1: 0x%lx\n" [Int spsr];;
  gl <- in_gl12;;
  when gl (aspsr <- mrs SYS_IMP_APL_ASPSR_GL1;;
           printf "ASPSR:    0x%lx\n" [Int aspsr]);;
  far <- (if el12 then mrs FAR_EL12 else mrs FAR_EL1);;
  printf "FAR_EL1:  0x%lx\n" [Int far];;
  let ec_desc := at_index ec_table (Z.land (Z.shiftr esr 26) 0x3f) in
  printf "ESR_EL1:  0x%lx (%s)\n"
         [Int esr; Str (match ec_desc with Some s => s | None => "?" end)];;
  l2c_err_sts <- mrs SYS_IMP_APL_L2C_ERR_STS;;
  printf "L2C_ERR_STS: 0x%lx\n" [Int l2c_err_sts];;
  adr <- mrs SYS_IMP_APL_L2C_ERR_ADR;;
  printf "L2C_ERR_ADR: 0x%lx\n" [Int adr];;
  inf <- mrs SYS_IMP_APL_L2C_ERR_INF;;
  printf "L2C_ERR_INF: 0x%lx\n" [Int inf];;
  msr SYS_IMP_APL_L2C_ERR_STS l2c_err_sts;;
  e <- is_ecore;;
  if e then
    lsu <- mrs SYS_IMP_APL_E_LSU_ERR_STS;;
    printf "E_LSU_ERR_STS: 0x%lx\n" [Int lsu];;
    fed <- mrs SYS_IMP_APL_E_FED_ERR_STS;;
    printf "E_FED_ERR_STS: 0x%lx\n" [Int fed];;
    mmu <- mrs SYS_IMP_APL_E_MMU_ERR_STS;;
    printf "E_MMU_ERR_STS: 0x%lx\n" [Int mmu]
  else
    lsu <- mrs SYS_IMP_APL_LSU_ERR_STS;;
    printf "LSU_ERR_STS: 0x%lx\n" [Int lsu];;
    fed <- mrs SYS_IMP_APL_FED_ERR_STS;;
    printf "FED_ERR_STS: 0x%lx\n" [Int fed];;
    mmu <- mrs SYS_IMP_APL_MMU_ERR_STS;;
    printf "MMU_ERR_STS: 0x%lx\n" [Int mmu].

(** The poison pattern of the guard engine. *)
Definition POISON : Z := 0xacce5515abad1dea.

(** [exc_sync], lines 207-243: the clean return from EL0, the hypercall
    dispatch and the banner.  The value is the local [el12]. *)
Definition exc_sync_relay : M bool :=
  spsr <- mrs SPSR_EL1;;
  esr <- mrs ESR_EL1;;
  when ((Z.land spsr 0xf =? 0) && (Z.land (Z.shiftr esr 26) 0x3f =? 0x3c))
       (msr SPSR_EL1 0x09;;
        msr ELR_EL1 el0_ret;;
        ret_void);;
  hvc <- andM in_el2
           (andM (notM in_gl12)
              (pure ((Z.land spsr 0xf =? 5)
                     && (Z.land (Z.shiftr esr 26) 0x3f =? 0x16))));;
  if hvc then
    esr2 <- mrs ESR_EL2;;
    let imm := Z.land esr2 0xffff in
    if imm =? 0 then
      msr SPSR_EL2 0x09;;
      msr ELR_EL2 el1_ret;;
      ret_void
    else if (0x10 <=? imm) && (imm <=? 0x1f) then
      ns <- not_silent;;
      when ns (printf "EL1 Exception: 0x%x\n" [Int imm]);;
      s <- mrs SPSR_EL12;;
      msr SPSR_EL2 s;;
      e <- mrs ELR_EL12;;
      msr ELR_EL2 e;;
      pure true
    else
      printf "Unknown HVC: 0x%x\n" [Int imm];;
      pure false
  else
    ns <- not_silent;;
    when ns (uart_puts "Exception: SYNC");;
    pure false.

(** [exc_sync], lines 245-249: the barriers and the report. *)
Definition exc_sync_report (regs : Z) (el12 : bool) : M unit :=
  sysop "isb";;
  sysop "dsb sy";;
  ns <- not_silent;;
  when ns (print_regs regs el12).

(** [exc_sync], lines 251-278: the guard engine. *)
Definition exc_sync_guard : M unit :=
  g <- load_exc_guard;;
  let type := Z.land g GUARD_TYPE_MASK in
  elr <- (if type =? GUARD_SKIP then
            e <- mrs ELR_EL1;;
            pure (u64 (e + 4))
          else if type =? GUARD_MARK then
            pc <- mrs ELR_EL1;;
            insn <- read32 pc;;
            regs_store (Z.land insn 0x1f) POISON;;
            e <- mrs ELR_EL1;;
            pure (u64 (e + 4))
          else if type =? GUARD_RETURN then
            regs_store 0 POISON;;
            lr <- regs_load 30;;
            store_exc_guard GUARD_OFF;;
            pure lr
          else
            flush_and_reboot);;
  c <- load_exc_count;;
  store_exc_count (s32 (c + 1));;
  ns <- not_silent;;
  when ns (printf "Recovering from exception (ELR=0x%lx)\n" [Int elr]);;
  msr ELR_EL1 elr;;
  sysop "isb";;
  sysop "dsb sy".

Definition exc_sync (regs : Z) : M unit :=
  el12 <- exc_sync_relay;;
  exc_sync_report regs el12;;
  exc_sync_guard.

End Handlers.

(** ** How an exception is classified *)

Section Classification.

Context {P : Platform}.

(** The value [mrs(r)] reads on a machine. *)
Definition peek (r : sysreg) (m : machine) : Z := sysregs m (cell r).

(** The clean return from EL0: selector nibble 0 and class [brk (a64)]. *)
Definition el0_clean_return (m : machine) : bool :=
  (spsr_mode (peek SPSR_EL1 m) =? 0)
  && (exception_class (peek ESR_EL1 m) =? 0x3c).

(** A hypercall of the guest: the core is at EL2 and not in the guarded
    level, the selector nibble is 5 (EL1h) and the class is [hvc in a64]. *)
Definition hypercall (m : machine) : bool :=
  cur_el2 m && negb (cur_gl12 m)
  && (spsr_mode (peek SPSR_EL1 m) =? 5)
  && (exception_class (peek ESR_EL1 m) =? 0x16).

(** The 16-bit immediate of the call. *)
Definition hvc_imm (m : machine) : Z := Z.land (peek ESR_EL2 m) 0xffff.

(** The mode of the guard and its silence flag. *)
Definition guard_type (m : machine) : Z := Z.land (exc_guard m) GUARD_TYPE_MASK.

Definition silent (m : machine) : bool :=
  negb (Z.land (exc_guard m) GUARD_SILENT =? 0).

(** The exception is one of the two cooperative returns, which the relay
    answers by a redirection to a thunk. *)
Definition redirected (m : machine) : bool :=
  el0_clean_return m || (hypercall m && (hvc_imm m =? 0)).

(** The exception is a fault of the guest handed down by a hypercall. *)
Definition relayed (m : machine) : bool :=
  hypercall m && (0x10 <=? hvc_imm m) && (hvc_imm m <=? 0x1f).

(** The exception is a hypercall the relay does not know. *)
Definition unknown_hvc (m : machine) : bool :=
  hypercall m
  && negb (hvc_imm m =? 0)
  && negb ((0x10 <=? hvc_imm m) && (hvc_imm m <=? 0x1f)).

(** The address the guard engine takes for the faulting instruction: what
    [mrs(ELR_EL1)] reads once the relay is through. *)
Definition fault_address (m : machine) : Z :=
  peek ELR_EL1 (final (exc_sync_relay m)).

(** The slot of the context the MARK mode writes for an instruction word. *)
Definition mark_slot (insn : Z) : Z := Z.land insn 0x1f.

(** The machine after the report: it differs from the machine before by
    console output and by the acknowledged L2C error status at most. *)
Definition reported (m m' : machine) : Prop :=
  cur_el2 m' = cur_el2 m /\ cur_gl12 m' = cur_gl12 m /\ ecore m' = ecore m
  /\ mem32 m' = mem32 m /\ ctx m' = ctx m
  /\ exc_guard m' = exc_guard m /\ exc_count m' = exc_count m
  /\ (forall r, r <> SYS_IMP_APL_L2C_ERR_STS -> sysregs m' r = sysregs m r)
  /\ exists o, console m' = (console m ++ o)%list.

(** What lines 271-278 make of a machine once the switch has resolved the
    return address [elr]. *)
Definition recovered (elr : Z) (m : machine) : machine :=
  let m1 := set_exc_count (s32 (exc_count m + 1)) m in
  let m2 :=
    if silent m1 then m1
    else emit (Printf "Recovering from exception (ELR=0x%lx)\n" [Int elr]) m1 in
  set_sysregs (upd_reg (sysregs m2) (cell ELR_EL1) elr) m2.

(** The enumerators are usable as the labels of one [switch], and
    [GUARD_OFF] is its own value under the type mask. *)
Definition guard_enum_ok : bool :=
  negb (GUARD_OFF =? GUARD_SKIP) && negb (GUARD_OFF =? GUARD_MARK)
  && negb (GUARD_OFF =? GUARD_RETURN) && negb (GUARD_SKIP =? GUARD_MARK)
  && negb (GUARD_SKIP =? GUARD_RETURN) && negb (GUARD_MARK =? GUARD_RETURN)
  && (Z.land GUARD_OFF GUARD_TYPE_MASK =? GUARD_OFF).

(** *** Successive faults

    Between two faults the interrupted code runs on and the next exception
    is taken: registers, context and memory are what the next entry finds
    them to be, while the guard cell and the counter are left as the
    handler left them (the caller neither rearms nor disarms). *)
Record entry : Type := mkEntry {
  e_sysregs : sysreg -> Z;
  e_ctx : Z -> Z;
  e_mem32 : Z -> Z
}.

Definition take (e : entry) (m : machine) : machine :=
  mkMachine (e_sysregs e) (cur_el2 m) (cur_gl12 m) (ecore m) (e_mem32 e)
            (e_ctx e) (exc_guard m) (exc_count m) (console m).

(** The handler run on each entry in turn, as long as the machine is not
    rebooted; the value is the list of the addresses execution resumed at. *)
Fixpoint exc_sync_each (regs : Z) (es : list entry) : M (list Z) :=
  match es with
  | [] => pure []
  | e :: es' =>
      fun m =>
        match exc_sync regs (take e m) with
        | Halt m' => Halt m'
        | Next _ m' | Done m' =>
            (l <- exc_sync_each regs es';; pure (peek ELR_EL1 m' :: l)) m'
        end
  end.

End Classification.

(** ** Concrete configurations *)

Module Sample.

(** The redirection of a core at EL2 with [E2H] set. *)
Definition vhe (b : bank) : bank :=
  match b with
  | EL1 => EL2
  | EL2 => EL2
  | EL12 => EL1
  end.

(** A build whose guard enumeration has the modes in the low byte and the
    silence flag above it. *)
Definition at_el2 : Platform :=
  {| redirect := vhe;
     el0_ret := 0x810000c00; el1_ret := 0x810000c40; _base := 0x810000000;
     GUARD_OFF := 0; GUARD_SKIP := 1; GUARD_MARK := 2; GUARD_RETURN := 3;
     GUARD_TYPE_MASK := 0xff; GUARD_SILENT := 0x100 |}.

(** The same build on a core at EL1, where every name reaches its own
    register. *)
Definition at_el1 : Platform :=
  {| redirect := fun b => b;
     el0_ret := 0x810000c00; el1_ret := 0x810000c40; _base := 0x810000000;
     GUARD_OFF := 0; GUARD_SKIP := 1; GUARD_MARK := 2; GUARD_RETURN := 3;
     GUARD_TYPE_MASK := 0xff; GUARD_SILENT := 0x100 |}.

(** Register files: everything zero but the listed cells. *)
Fixpoint regfile (l : list (sysreg * Z)) (r : sysreg) : Z :=
  match l with
  | [] => 0
  | (r', v) :: l' => if sysreg_eq_dec r r' then v else regfile l' r
  end.

(** A context whose slot [i] holds [0x1000 + i]. *)
Definition frame (i : Z) : Z := 0x1000 + i.

(** Memory whose every word is the instruction [ldr x7, [x1]]. *)
Definition text (addr : Z) : Z := 0xf9400027.

Definition machine_with (el2 : bool) (l : list (sysreg * Z)) (guard : Z) :
  machine :=
  {| sysregs := regfile l; cur_el2 := el2; cur_gl12 := false;
     ecore := false; mem32 := text; ctx := frame;
     exc_guard := guard; exc_count := 0; console := [] |}.

(** The cells after a data abort at the current level of a core at EL2,
    at address [0x810004000]. *)
Definition data_abort : list (sysreg * Z) :=
  [ (SPSR_EL2, 0x3c9); (ESR_EL2, 0x96000010); (ELR_EL2, 0x810004000) ].

(** The cells after a data abort at the current level of a core at EL1. *)
Definition data_abort_el1 : list (sysreg * Z) :=
  [ (SPSR_EL1, 0x3c5); (ESR_EL1, 0x96000010); (ELR_EL1, 0x810004000) ].

(** The cells after a hypercall of the guest with immediate [imm]; the
    guest's own exception was taken at [0x820000100]. *)
Definition hvc (imm : Z) : list (sysreg * Z) :=
  [ (SPSR_EL2, 0x3c5); (ESR_EL2, 0x5a000000 + imm); (ELR_EL2, 0x810008004);
    (SPSR_EL1, 0x3c4); (ELR_EL1, 0x820000100) ].

(** The cells after the [brk] by which code at EL0 returns, on a core at
    EL1. *)
Definition el0_brk : list (sysreg * Z) :=
  [ (SPSR_EL1, 0x3c0); (ESR_EL1, 0xf2000000); (ELR_EL1, 0x5000) ].

(** The address of the context in the examples. *)
Definition regs : Z := 0x810ff0000.

(** A data abort with the guard off, with each of the recovering modes
    armed, and with [GUARD_RETURN | GUARD_SILENT]. *)
Definition off_fault : machine := machine_with true data_abort 0.
Definition skip_fault : machine := machine_with true data_abort 1.
Definition mark_fault : machine := machine_with true data_abort 2.
Definition return_fault : machine := machine_with true data_abort 3.
Definition silent_return_fault : machine := machine_with true data_abort 0x103.

(** A data abort under [MARK] at the instruction [ldr xzr, [x1]], whose low
    five bits are all set. *)
Definition mark_fault_31 : machine :=
  {| sysregs := regfile data_abort; cur_el2 := true; cur_gl12 := false;
     ecore := false; mem32 := fun _ => 0xf940003f; ctx := frame;
     exc_guard := 2; exc_count := 0; console := [] |}.

(** A fault of the guest handed down with immediate [0x11], under [SKIP]. *)
Definition relayed_fault : machine := machine_with true (hvc 0x11) 1.

(** A hypercall with the unknown immediate [0x20], with the guard off and
    under [SKIP]. *)
Definition unknown_call_off : machine := machine_with true (hvc 0x20) 0.
Definition unknown_call_skip : machine := machine_with true (hvc 0x20) 1.

(** On a core at EL1: the clean return from EL0 with the guard off, and a
    data abort under [SKIP]. *)
Definition el0_return_el1 : machine := machine_with false el0_brk 0.
Definition skip_fault_el1 : machine := machine_with false data_abort_el1 1.

(** Three entries of the same data abort. *)
Definition abort_entry : entry := mkEntry (regfile data_abort) frame text.
Definition three_aborts : list entry := [abort_entry; abort_entry; abort_entry].

End Sample.

(** ** The other handlers of exception.c *)

Section Advisory.

Context {P : Platform}.


(** [exc_irq], as it is built without [DEBUG_UART_IRQS]. *)
Definition exc_irq (regs : Z) : M unit :=
  src <- get_exception_source false;;
  printf "Exception: IRQ (from %s)\n" [Str src];;
  reason <- read32 0x23b102004;;
  mpidr <- mrs MPIDR_EL1;;
  printf " type: %d num: %d mpidr: %lx\n"
         [Int (Z.shiftr reason 16); Int (Z.land reason 0xffff); Int mpidr].

End Advisory.

(** *** Reading the console *)

(** The format of a [printf] line, the text of a [uart_puts] line. *)
Definition fmt_of (o : out) : string :=
  match o with
  | Printf fmt _ => fmt
  | Puts s => s
  end.

(** The formats of the lines of a report, for a core in or out of the
    guarded level and of the efficiency or the performance kind. *)
Definition report_formats (gl e : bool) : list string :=
  [ "Exception taken from %s\n";
    "Running in %s\n";
    "MPIDR: 0x%lx\n";
    "Registers: (@%p)\n";
    "  x0-x3: %016lx %016lx %016lx %016lx\n";
    "  x4-x7: %016lx %016lx %016lx %016lx\n";
    " x8-x11: %016lx %016lx %016lx %016lx\n";
    "x12-x15: %016lx %016lx %016lx %016lx\n";
    "x16-x19: %016lx %016lx %016lx %016lx\n";
    "x20-x23: %016lx %016lx %016lx %016lx\n";
    "x24-x27: %016lx %016lx %016lx %016lx\n";
    "x28-x30: %016lx %016lx %016lx\n";
    "PC:       0x%lx (rel: 0x%lx)\n";
    "SP:       0x%lx\n";
    "SPSR_EL1: 0x%lx\n" ]
  ++ (if gl then ["ASPSR:    0x%lx\n"] else [])
  ++ [ "FAR_EL1:  0x%lx\n";
       "ESR_EL1:  0x%lx (%s)\n";
       "L2C_ERR_STS: 0x%lx\n";
       "L2C_ERR_ADR: 0x%lx\n";
       "L2C_ERR_INF: 0x%lx\n" ]
  ++ (if e
      then ["E_LSU_ERR_STS: 0x%lx\n"; "E_FED_ERR_STS: 0x%lx\n";
            "E_MMU_ERR_STS: 0x%lx\n"]
      else ["LSU_ERR_STS: 0x%lx\n"; "FED_ERR_STS: 0x%lx\n";
            "MMU_ERR_STS: 0x%lx\n"]).

(** The letters after the first of a mode label, by selector nibble. *)
Definition mode_suffix (nibble : Z) : option string :=
  match nibble with
  | 0x0 => Some "L0t"
  | 0x4 => Some "L1t"
  | 0x5 => Some "L1h"
  | 0x8 => Some "L2t"
  | 0x9 => Some "L2h"
  | _ => None
  end.

(** The classes of the class table that carry a label, with their labels. *)
Definition ec_labels : list (Z * string) :=
  flat_map (fun n => match at_index ec_table (Z.of_nat n) with
                     | Some s => [(Z.of_nat n, s)]
                     | None => []
                     end)
           (seq 0 64).

(** No two of the listed classes carry the same label. *)
Fixpoint labels_distinct (l : list (Z * string)) : bool :=
  match l with
  | [] => true
  | (_, s) :: l' =>
      forallb (fun e => negb (String.eqb s (snd e))) l' && labels_distinct l'
  end.

(** ** The machine with its timers and its configuration registers *)

(** The registers exception.c names outside the synchronous path. *)
Inductive ctlreg : Set :=
| VBAR_EL1
| VBAR_EL12
| DAIF
| HCR_EL2
| CNTP_CTL_EL0
| CNTV_CTL_EL0
| CNTP_CTL_EL02
| CNTV_CTL_EL02
| SYS_IMP_APL_PMCR0
| SYS_IMP_APL_UPMCR0
| SYS_IMP_APL_UPMSR.

Definition ctlreg_eq_dec (a b : ctlreg) : {a = b} + {a <> b}.
Proof. decide equality. Defined.

Definition upd_ctl (f : ctlreg -> Z) (c : ctlreg) (v : Z) : ctlreg -> Z :=
  fun r => if ctlreg_eq_dec r c then v else f r.

Record system : Type := mkSystem {
  core : machine;          (* the machine of the synchronous path *)
  ctlregs : ctlreg -> Z    (* the cells of the other registers *)
}.

(** What the FIQ handler and the initialisation take from cpu_regs.h and
    from the linker. *)
Class Board : Type := {
  _vectors_start : Z;
  _el1_vectors_start : Z;
  PMCR0_IMODE_MASK : Z;
  PMCR0_IMODE_FIQ : Z;
  PMCR0_IACT : Z;
  UPMCR0_IMODE_MASK : Z;
  UPMCR0_IMODE_FIQ : Z;
  UPMSR_IACT : Z
}.

Inductive sresult (A : Type) : Type :=
| SNext (a : A) (s : system)
| SDone (s : system)
| SHalt (s : system).

Arguments SNext {A} a s.
Arguments SDone {A} s.
Arguments SHalt {A} s.

Definition Sys (A : Type) : Type := system -> sresult A.

Definition spure {A} (a : A) : Sys A := fun s => SNext a s.

Definition sbind {A B} (c : Sys A) (k : A -> Sys B) : Sys B :=
  fun s =>
    match c s with
    | SNext a s' => k a s'
    | SDone s' => SDone s'
    | SHalt s' => SHalt s'
    end.

Declare Scope system_scope.
Delimit Scope system_scope with system.
Bind Scope system_scope with Sys.

Notation "x <- c1 ;; c2" := (sbind c1 (fun x => c2))
  (at level 61, c1 at next level, right associativity) : system_scope.
Notation "c1 ;; c2" := (sbind c1 (fun _ => c2))
  (at level 61, right associativity) : system_scope.

(** A statement of the synchronous path, run on the core of the system. *)
Definition lift {A} (c : M A) : Sys A :=
  fun s =>
    match c (core s) with
    | Next a m => SNext a (mkSystem m (ctlregs s))
    | Done m => SDone (mkSystem m (ctlregs s))
    | Halt m => SHalt (mkSystem m (ctlregs s))
    end.

Definition sfinal {A} (r : sresult A) : system :=
  match r with SNext _ s | SDone s | SHalt s => s end.

(** The handler ran to the end of its body. *)
Definition ran_through {A} (r : sresult A) : bool :=
  match r with SNext _ _ => true | _ => false end.

Section Configuration.

Context {P : Platform} {B : Board}.

Local Open Scope system_scope.

Definition ctl_mrs (r : ctlreg) : Sys Z := fun s => SNext (ctlregs s r) s.

Definition ctl_msr (r : ctlreg) (v : Z) : Sys unit :=
  fun s => SNext tt (mkSystem (core s) (upd_ctl (ctlregs s) r v)).

(** Modelled from the spec: [reg_clr] is a macro of utils.h, outside
    exception.c; the spec has the FIQ handler write a masking value back to
    the source it silences, and the macro is read as the write of the
    register with the given bits cleared. *)
Definition reg_clr (r : ctlreg) (bits : Z) : Sys unit :=
  v <- ctl_mrs r;;
  ctl_msr r (Z.land v (u64 (Z.lnot bits))).

(** [BIT(n)] of utils.h: the word with bit [n] alone set. *)
Definition BIT (n : Z) : Z := Z.shiftl 1 n.

Definition exception_initialize : Sys unit :=
  ctl_msr VBAR_EL1 _vectors_start;;
  ctl_msr DAIF (Z.shiftl 0 6);;
  el2 <- lift in_el2;;
  if el2 then
    ctl_msr HCR_EL2
            (Z.lor (BIT 41)
               (Z.lor (BIT 40)
                  (Z.lor (BIT 37)
                     (Z.lor (BIT 34)
                        (Z.lor (BIT 31)
                           (Z.lor (BIT 27)
                              (Z.lor (BIT 5) (Z.lor (BIT 4) (BIT 3)))))))));;
    ctl_msr VBAR_EL12 _el1_vectors_start;;
    lift (sysop "isb")
  else spure tt.

(** The bits of the value written to [HCR_EL2], as the comments of the
    source name them: FMO, IMO, AMO, TGE, RW, E2H, TEA, APK, API. *)
Definition hcr_bits : list Z := [3; 4; 5; 27; 31; 34; 37; 40; 41].

Definition exception_shutdown : Sys unit :=
  ctl_msr DAIF (Z.shiftl 7 6).

(** The block [exc_fiq] repeats for each timer: a control register that
    reads [0x5] is logged and written with [7]. *)
Definition mask_timer (r : ctlreg) (msg : string) : Sys unit :=
  reg <- ctl_mrs r;;
  if reg =? 0x5 then
    lift (uart_puts msg);;
    ctl_msr r 7
  else spure tt.

(** [exc_fiq], lines 336-345: the two performance monitors. *)
Definition exc_fiq_pmc : Sys unit :=
  reg <- ctl_mrs SYS_IMP_APL_PMCR0;;
  (if Z.land reg (Z.lor PMCR0_IMODE_MASK PMCR0_IACT)
      =? Z.lor PMCR0_IMODE_FIQ PMCR0_IACT
   then
     lift (uart_puts "  PMC IRQ, masking");;
     reg_clr SYS_IMP_APL_PMCR0 (Z.lor PMCR0_IACT PMCR0_IMODE_MASK)
   else spure tt);;
  reg' <- ctl_mrs SYS_IMP_APL_UPMCR0;;
  upmc <- (if Z.land reg' UPMCR0_IMODE_MASK =? UPMCR0_IMODE_FIQ then
             upmsr <- ctl_mrs SYS_IMP_APL_UPMSR;;
             spure (negb (Z.land upmsr UPMSR_IACT =? 0))
           else spure false);;
  if upmc then
    lift (uart_puts "  UPMC IRQ, masking");;
    reg_clr SYS_IMP_APL_UPMCR0 UPMCR0_IMODE_MASK
  else spure tt.

(** [exc_fiq]: the banner, the timers (lines 309-334), then the
    performance monitors. *)
Definition exc_fiq (regs : Z) : Sys unit :=
  src <- lift (get_exception_source false);;
  lift (printf "Exception: FIQ (from %s)\n" [Str src]);;
  mask_timer CNTP_CTL_EL0 "  PHYS timer IRQ, masking";;
  mask_timer CNTV_CTL_EL0 "  VIRT timer IRQ, masking";;
  el2 <- lift in_el2;;
  (if el2 then
     mask_timer CNTP_CTL_EL02 "  PHYS EL02 timer IRQ, masking";;
     mask_timer CNTV_CTL_EL02 "  VIRT EL02 timer IRQ, masking"
   else spure tt);;
  exc_fiq_pmc.

(** The four timer control registers, and the lines that log them. *)
Definition timers : list ctlreg :=
  [CNTP_CTL_EL0; CNTV_CTL_EL0; CNTP_CTL_EL02; CNTV_CTL_EL02].

Definition timer_line (r : ctlreg) : option out :=
  match r with
  | CNTP_CTL_EL0 => Some (Puts "  PHYS timer IRQ, masking")
  | CNTV_CTL_EL0 => Some (Puts "  VIRT timer IRQ, masking")
  | CNTP_CTL_EL02 => Some (Puts "  PHYS EL02 timer IRQ, masking")
  | CNTV_CTL_EL02 => Some (Puts "  VIRT EL02 timer IRQ, masking")
  | _ => None
  end.

(** The handler looks at a timer: always at the two of EL0, at the two
    behind the [_EL02] names on a core at EL2 only. *)
Definition examined (s : system) (r : ctlreg) : bool :=
  match r with
  | CNTP_CTL_EL0 | CNTV_CTL_EL0 => true
  | CNTP_CTL_EL02 | CNTV_CTL_EL02 => cur_el2 (core s)
  | _ => false
  end.

End Configuration.

(** *** Further concrete configurations *)

Module Bench.

(** The constants of cpu_regs.h as a build may have them. *)
Definition board : Board :=
  {| _vectors_start := 0x810001000; _el1_vectors_start := 0x810001800;
     PMCR0_IMODE_MASK := 0x700; PMCR0_IMODE_FIQ := 0x400;
     PMCR0_IACT := 0x800;
     UPMCR0_IMODE_MASK := 0x70000; UPMCR0_IMODE_FIQ := 0x40000;
     UPMSR_IACT := 0x1 |}.

Fixpoint ctlfile (l : list (ctlreg * Z)) (r : ctlreg) : Z :=
  match l with
  | [] => 0
  | (r', v) :: l' => if ctlreg_eq_dec r r' then v else ctlfile l' r
  end.

(** A core at EL2 whose physical timer of EL0 and virtual timer behind
    [_EL02] are pending. *)
Definition two_timers : system :=
  mkSystem Sample.off_fault
           (ctlfile [ (CNTP_CTL_EL0, 0x5); (CNTV_CTL_EL0, 0x1);
                      (CNTP_CTL_EL02, 0x3); (CNTV_CTL_EL02, 0x5) ]).

(** A core at EL1 on which every timer reads [0x5]. *)
Definition el1_timers : system :=
  mkSystem Sample.skip_fault_el1
           (ctlfile [ (CNTP_CTL_EL0, 0x5); (CNTV_CTL_EL0, 0x5);
                      (CNTP_CTL_EL02, 0x5); (CNTV_CTL_EL02, 0x5) ]).

(** A machine whose interrupt controller reports type 1, number 0x2a. *)
Definition irq_pending : machine :=
  {| sysregs := Sample.regfile Sample.data_abort; cur_el2 := true;
     cur_gl12 := false; ecore := false; mem32 := fun _ => 0x1002a;
     ctx := Sample.frame; exc_guard := 0; exc_count := 0; console := [] |}.

(** A data abort under [SKIP] with the silence flag set. *)
Definition silent_skip_fault : machine :=
  Sample.machine_with true Sample.data_abort 0x101.

(** The clean return of the guest: a hypercall with immediate 0. *)
Definition el1_return : machine := Sample.machine_with true (Sample.hvc 0) 0.

End Bench.

(** * Properties *)

(** ** Machine integers and updates *)

Lemma s32_small z : - 2 ^ 31 <= z <= INT_MAX -> s32 z = z.
Proof.
  unfold s32, INT_MAX. intros H.
  rewrite Z.mod_small by lia. lia.
Qed.

(** A mask with [2^n - 1] keeps the low [n] bits. *)
Lemma land_ones_range z n : 0 <= n -> 0 <= Z.land z (Z.ones n) < 2 ^ n.
Proof.
  intros Hn. rewrite Z.land_ones by exact Hn.
  apply Z.mod_pos_bound. now apply Z.pow_pos_nonneg.
Qed.

Lemma exception_class_range esr : 0 <= exception_class esr < 64.
Proof. apply (land_ones_range (Z.shiftr esr 26) 6). lia. Qed.

Lemma upd_reg_same f c v : upd_reg f c v c = v.
Proof. unfold upd_reg. now destruct (sysreg_eq_dec c c). Qed.

Lemma upd_reg_other f c v r : r <> c -> upd_reg f c v r = f r.
Proof. unfold upd_reg. intros H. now destruct (sysreg_eq_dec r c). Qed.

Lemma upd_slot_same f i v : upd_slot f i v i = v.
Proof. unfold upd_slot. now rewrite Z.eqb_refl. Qed.

Lemma upd_slot_other f i v j : j <> i -> upd_slot f i v j = f j.
Proof.
  unfold upd_slot. intros H.
  now destruct (Z.eqb_spec j i).
Qed.

#[global] Opaque upd_reg upd_slot.

(** Running the primitive statements on a symbolic machine. *)
Ltac run :=
  cbv beta iota zeta delta
      [bind pure when ret_void andM notM not_silent mrs msr sysop
       in_el2 in_gl12 is_ecore read32 regs_load regs_store load_exc_guard
       store_exc_guard load_exc_count store_exc_count printf uart_puts
       flush_and_reboot];
  cbn [final returns
       sysregs cur_el2 cur_gl12 ecore mem32 ctx exc_guard exc_count console
       set_sysregs set_ctx set_exc_guard set_exc_count emit
       andb orb negb].

(** The same on a machine given by its fields. *)
Ltac run_record :=
  cbv beta iota zeta delta
      [bind pure when ret_void andM notM not_silent mrs msr sysop
       in_el2 in_gl12 is_ecore read32 regs_load regs_store load_exc_guard
       store_exc_guard load_exc_count store_exc_count printf uart_puts
       flush_and_reboot final returns regs_args
       sysregs cur_el2 cur_gl12 ecore mem32 ctx exc_guard exc_count console
       set_sysregs set_ctx set_exc_guard set_exc_count emit].

(** ** The relay, case by case *)

Section Relay.

Context {P : Platform}.

(** The two selector tests look at one status value and exclude each
    other. *)
Lemma hypercall_not_el0 m : hypercall m = true -> el0_clean_return m = false.
Proof.
  unfold hypercall, el0_clean_return. intros H.
  apply andb_true_iff in H as [H _]. apply andb_true_iff in H as [_ H].
  apply Z.eqb_eq in H. rewrite H. reflexivity.
Qed.

Lemma relay_el0_return m :
  el0_clean_return m = true ->
  exc_sync_relay m =
  Done (set_sysregs
          (upd_reg (upd_reg (sysregs m) (cell SPSR_EL1) 0x09)
                   (cell ELR_EL1) el0_ret) m).
Proof.
  unfold el0_clean_return, spsr_mode, exception_class, peek. intros H.
  unfold exc_sync_relay. run.
  rewrite H. run. reflexivity.
Qed.

Lemma relay_hypercall m :
  hypercall m = true ->
  exc_sync_relay m =
  (esr2 <- mrs ESR_EL2;;
   let imm := Z.land esr2 0xffff in
   if imm =? 0 then
     msr SPSR_EL2 0x09;;
     msr ELR_EL2 el1_ret;;
     ret_void
   else if (0x10 <=? imm) && (imm <=? 0x1f) then
     ns <- not_silent;;
     when ns (printf "EL1 Exception: 0x%x\n" [Int imm]);;
     s <- mrs SPSR_EL12;;
     msr SPSR_EL2 s;;
     e <- mrs ELR_EL12;;
     msr ELR_EL2 e;;
     pure true
   else
     printf "Unknown HVC: 0x%x\n" [Int imm];;
     pure false)%handler m.
Proof.
  intros H. pose proof (hypercall_not_el0 m H) as H0.
  unfold hypercall, el0_clean_return, spsr_mode, exception_class, peek in *.
  apply andb_true_iff in H as [H H3]. apply andb_true_iff in H as [H H2].
  apply andb_true_iff in H as [H1 Hg]. apply negb_true_iff in Hg.
  unfold exc_sync_relay. run.
  rewrite H0. run.
  rewrite H1, Hg, H2, H3. run. reflexivity.
Qed.

Lemma relay_clean_el1_return m :
  hypercall m = true -> hvc_imm m = 0 ->
  exc_sync_relay m =
  Done (set_sysregs
          (upd_reg (upd_reg (sysregs m) (cell SPSR_EL2) 0x09)
                   (cell ELR_EL2) el1_ret) m).
Proof.
  intros H Hi. rewrite (relay_hypercall m H).
  unfold hvc_imm, peek in Hi. run.
  rewrite Hi. run. reflexivity.
Qed.

Lemma relay_relayed m :
  relayed m = true ->
  let m0 :=
    if silent m then m
    else emit (Printf "EL1 Exception: 0x%x\n" [Int (hvc_imm m)]) m in
  exc_sync_relay m =
  Next true
       (set_sysregs
          (upd_reg (upd_reg (sysregs m) (cell SPSR_EL2) (peek SPSR_EL12 m))
                   (cell ELR_EL2) (peek ELR_EL12 m)) m0).
Proof.
  unfold relayed. intros H.
  apply andb_true_iff in H as [H Hhi]. apply andb_true_iff in H as [H Hlo].
  rewrite (relay_hypercall m H).
  unfold hvc_imm, peek, silent in *. run.
  assert (Hnz : (Z.land (sysregs m (cell ESR_EL2)) 0xffff =? 0) = false).
  { apply Z.eqb_neq. apply Z.leb_le in Hlo. lia. }
  rewrite Hnz, Hlo, Hhi. run.
  destruct (Z.land (exc_guard m) GUARD_SILENT =? 0); run;
    rewrite upd_reg_other by (cbn; discriminate); reflexivity.
Qed.

Lemma relay_unknown_hvc m :
  unknown_hvc m = true ->
  exc_sync_relay m =
  Next false (emit (Printf "Unknown HVC: 0x%x\n" [Int (hvc_imm m)]) m).
Proof.
  unfold unknown_hvc. intros H.
  apply andb_true_iff in H as [H Hr]. apply andb_true_iff in H as [H Hz].
  apply negb_true_iff in Hr, Hz.
  rewrite (relay_hypercall m H).
  unfold hvc_imm, peek in *. run.
  rewrite Hz, Hr. run. reflexivity.
Qed.

Lemma relay_direct m :
  el0_clean_return m = false -> hypercall m = false ->
  exc_sync_relay m =
  Next false (if silent m then m else emit (Puts "Exception: SYNC") m).
Proof.
  intros H0 H.
  unfold hypercall, el0_clean_return, spsr_mode, exception_class, peek,
    silent in *.
  unfold exc_sync_relay. run.
  rewrite H0. run.
  destruct (cur_el2 m); [destruct (cur_gl12 m)|]; run; cbn [andb negb] in H;
    rewrite ?H; run;
    destruct (Z.land (exc_guard m) GUARD_SILENT =? 0); reflexivity.
Qed.

End Relay.

(** ** The report *)

Section Report.

Context {P : Platform}.

Lemma reported_refl m : reported m m.
Proof.
  unfold reported. repeat split; try reflexivity.
  exists []. now rewrite app_nil_r.
Qed.

(** [print_regs] always comes back, and leaves the machine as it found it
    but for its output and the acknowledged error status. *)
Lemma print_regs_reported regs el12 m :
  exists m', print_regs regs el12 m = Next tt m' /\ reported m m'.
Proof.
  destruct m as [sr el2 gl ec mem cx g c con].
  unfold print_regs, get_exception_source, get_exception_level.
  destruct el12, gl, ec; run_record;
    (eexists; split; [reflexivity|]);
    unfold reported; run_record;
    (repeat split; try reflexivity;
     [ intros r Hr; now rewrite upd_reg_other by exact Hr
     | rewrite <- !app_assoc; eexists; reflexivity ]).
Qed.

Lemma report_reported regs el12 m :
  exists m', exc_sync_report regs el12 m = Next tt m' /\ reported m m'
             /\ (silent m = true -> m' = m).
Proof.
  unfold exc_sync_report, silent. run.
  destruct (Z.land (exc_guard m) GUARD_SILENT =? 0); run.
  - destruct (print_regs_reported regs el12 m) as (m' & -> & Hr).
    exists m'. repeat split; try apply Hr. discriminate.
  - exists m. repeat split; try apply reported_refl.
Qed.

Lemma reported_peek m m' r :
  reported m m' -> cell r <> SYS_IMP_APL_L2C_ERR_STS -> peek r m' = peek r m.
Proof.
  intros (_ & _ & _ & _ & _ & _ & _ & H & _) Hr. unfold peek. now apply H.
Qed.

End Report.

(** ** The guard engine, mode by mode *)

Section Guard.

Context {P : Platform}.

Lemma guard_skip m :
  guard_type m = GUARD_SKIP ->
  exc_sync_guard m = Next tt (recovered (u64 (peek ELR_EL1 m + 4)) m).
Proof.
  unfold guard_type, recovered, silent, peek. intros H.
  unfold exc_sync_guard. run.
  rewrite H, Z.eqb_refl. run.
  destruct (Z.land (exc_guard m) GUARD_SILENT =? 0); reflexivity.
Qed.

Lemma guard_mark m :
  GUARD_SKIP <> GUARD_MARK ->
  guard_type m = GUARD_MARK ->
  exc_sync_guard m =
  Next tt
       (recovered (u64 (peek ELR_EL1 m + 4))
          (set_ctx (upd_slot (ctx m) (mark_slot (mem32 m (peek ELR_EL1 m)))
                             POISON) m)).
Proof.
  unfold guard_type, recovered, silent, peek, mark_slot. intros Hd H.
  unfold exc_sync_guard. run.
  rewrite H, Z.eqb_refl.
  destruct (Z.eqb_spec GUARD_MARK GUARD_SKIP) as [E|_]; [now symmetry in E|].
  run.
  destruct (Z.land (exc_guard m) GUARD_SILENT =? 0); reflexivity.
Qed.

Lemma guard_return m :
  GUARD_SKIP <> GUARD_RETURN -> GUARD_MARK <> GUARD_RETURN ->
  guard_type m = GUARD_RETURN ->
  exc_sync_guard m =
  Next tt
       (recovered (ctx m 30)
          (set_exc_guard GUARD_OFF (set_ctx (upd_slot (ctx m) 0 POISON) m))).
Proof.
  unfold guard_type, recovered, silent. intros Hs Hm H.
  unfold exc_sync_guard. run.
  rewrite H, Z.eqb_refl.
  destruct (Z.eqb_spec GUARD_RETURN GUARD_SKIP) as [E|_]; [now symmetry in E|].
  destruct (Z.eqb_spec GUARD_RETURN GUARD_MARK) as [E|_]; [now symmetry in E|].
  run.
  rewrite upd_slot_other by discriminate.
  destruct (Z.land GUARD_OFF GUARD_SILENT =? 0); reflexivity.
Qed.

(** [GUARD_OFF] and every value that is none of the three recovering modes
    take the [default] label. *)
Lemma guard_fatal m :
  guard_type m <> GUARD_SKIP -> guard_type m <> GUARD_MARK ->
  guard_type m <> GUARD_RETURN ->
  exc_sync_guard m = Halt m.
Proof.
  unfold guard_type. intros Hs Hm Hr.
  unfold exc_sync_guard. run.
  destruct (Z.eqb_spec (Z.land (exc_guard m) GUARD_TYPE_MASK) GUARD_SKIP);
    [contradiction|].
  destruct (Z.eqb_spec (Z.land (exc_guard m) GUARD_TYPE_MASK) GUARD_MARK);
    [contradiction|].
  destruct (Z.eqb_spec (Z.land (exc_guard m) GUARD_TYPE_MASK) GUARD_RETURN);
    [contradiction|].
  reflexivity.
Qed.

(** The guard engine never leaves by a [return] statement. *)
Lemma guard_not_done m : forall m', exc_sync_guard m <> Done m'.
Proof.
  intros m'. unfold exc_sync_guard. run.
  destruct (Z.land (exc_guard m) GUARD_TYPE_MASK =? GUARD_SKIP); run.
  { destruct (Z.land (exc_guard m) GUARD_SILENT =? 0); discriminate. }
  destruct (Z.land (exc_guard m) GUARD_TYPE_MASK =? GUARD_MARK); run.
  { destruct (Z.land (exc_guard m) GUARD_SILENT =? 0); discriminate. }
  destruct (Z.land (exc_guard m) GUARD_TYPE_MASK =? GUARD_RETURN); run.
  { destruct (Z.land GUARD_OFF GUARD_SILENT =? 0); discriminate. }
  discriminate.
Qed.

(** What [recovered] changes. *)
Lemma recovered_elr elr m : peek ELR_EL1 (recovered elr m) = elr.
Proof.
  unfold recovered, peek.
  cbn [sysregs set_sysregs]. apply upd_reg_same.
Qed.

Lemma recovered_count elr m :
  exc_count (recovered elr m) = s32 (exc_count m + 1).
Proof.
  unfold recovered. cbn [exc_count set_sysregs].
  destruct (silent _); reflexivity.
Qed.

Lemma recovered_guard elr m : exc_guard (recovered elr m) = exc_guard m.
Proof.
  unfold recovered. cbn [exc_guard set_sysregs].
  destruct (silent _); reflexivity.
Qed.

Lemma recovered_ctx elr m : ctx (recovered elr m) = ctx m.
Proof.
  unfold recovered. cbn [ctx set_sysregs].
  destruct (silent _); reflexivity.
Qed.

Lemma recovered_levels elr m :
  cur_el2 (recovered elr m) = cur_el2 m
  /\ cur_gl12 (recovered elr m) = cur_gl12 m.
Proof.
  unfold recovered. cbn [cur_el2 cur_gl12 set_sysregs].
  destruct (silent _); split; reflexivity.
Qed.

Lemma recovered_console elr m :
  console (recovered elr m) =
  if silent m then console m
  else (console m
        ++ [Printf "Recovering from exception (ELR=0x%lx)\n" [Int elr]])%list.
Proof.
  unfold recovered. cbn [console set_sysregs].
  change (silent (set_exc_count (s32 (exc_count m + 1)) m)) with (silent m).
  destruct (silent m); reflexivity.
Qed.

End Guard.

(** ** The whole handler *)

Section Whole.

Context {P : Platform}.

Lemma exc_sync_done regs m m' :
  exc_sync_relay m = Done m' -> exc_sync regs m = Done m'.
Proof. intros H. unfold exc_sync, bind. now rewrite H. Qed.

Lemma exc_sync_next regs m el12 m1 :
  exc_sync_relay m = Next el12 m1 ->
  exc_sync regs m = (exc_sync_report regs el12;; exc_sync_guard) m1.
Proof. intros H. unfold exc_sync. unfold bind at 1. now rewrite H. Qed.

(** After the report the guard engine runs, on a machine the report has
    not changed but for the console and the error status. *)
Lemma report_then_guard regs el12 m1 :
  exists m2,
    (exc_sync_report regs el12;; exc_sync_guard) m1 = exc_sync_guard m2
    /\ reported m1 m2 /\ (silent m1 = true -> m2 = m1).
Proof.
  destruct (report_reported regs el12 m1) as (m2 & E & Hr & Hs).
  exists m2. split; [|split; assumption].
  unfold bind. now rewrite E.
Qed.

(** The three ways through the relay of an exception that is not one of
    the cooperative returns. *)
Lemma relay_cases m :
  redirected m = false ->
  (hypercall m = false /\ relayed m = false /\ unknown_hvc m = false
   /\ exc_sync_relay m =
      Next false (if silent m then m else emit (Puts "Exception: SYNC") m))
  \/ (relayed m = true /\ unknown_hvc m = false
      /\ exc_sync_relay m =
         Next true
           (set_sysregs
              (upd_reg (upd_reg (sysregs m) (cell SPSR_EL2) (peek SPSR_EL12 m))
                       (cell ELR_EL2) (peek ELR_EL12 m))
              (if silent m then m
               else emit (Printf "EL1 Exception: 0x%x\n" [Int (hvc_imm m)]) m)))
  \/ (unknown_hvc m = true /\ relayed m = false
      /\ exc_sync_relay m =
         Next false (emit (Printf "Unknown HVC: 0x%x\n" [Int (hvc_imm m)]) m)).
Proof.
  unfold redirected. intros H.
  apply orb_false_iff in H as [H0 H].
  destruct (hypercall m) eqn:Hh.
  - cbn [andb] in H.
    destruct ((0x10 <=? hvc_imm m) && (hvc_imm m <=? 0x1f)) eqn:Hr.
    + right; left.
      assert (R : relayed m = true).
      { unfold relayed. rewrite Hh. cbn [andb]. exact Hr. }
      repeat split; [exact R| |exact (relay_relayed m R)].
      unfold unknown_hvc. now rewrite Hh, H, Hr.
    + right; right.
      assert (U : unknown_hvc m = true).
      { unfold unknown_hvc. now rewrite Hh, H, Hr. }
      repeat split; [exact U| |exact (relay_unknown_hvc m U)].
      unfold relayed. rewrite Hh. cbn [andb]. exact Hr.
  - left. repeat split.
    + unfold relayed. now rewrite Hh.
    + unfold unknown_hvc. now rewrite Hh.
    + now apply relay_direct.
Qed.

(** The address the guard engine works on, spelled out. *)
Lemma fault_address_formula m :
  redirected m = false ->
  fault_address m =
  if relayed m
  then upd_reg (upd_reg (sysregs m) (cell SPSR_EL2) (peek SPSR_EL12 m))
               (cell ELR_EL2) (peek ELR_EL12 m) (cell ELR_EL1)
  else peek ELR_EL1 m.
Proof.
  intros H. unfold fault_address.
  destruct (relay_cases m H) as [(_ & R & _ & E)|[(R & _ & E)|(_ & R & E)]];
    rewrite E, R; cbn [final]; unfold peek;
    try destruct (silent m); reflexivity.
Qed.

(** A fault taken directly is resolved at its own return address; a fault
    of the guest at the address the guest's shadow holds when the [_EL1]
    names reach the EL2 registers. *)
Lemma fault_address_direct m :
  redirected m = false -> relayed m = false ->
  fault_address m = peek ELR_EL1 m.
Proof. intros H R. now rewrite fault_address_formula, R. Qed.

Lemma fault_address_relayed m :
  relayed m = true ->
  fault_address m =
  if bank_eq_dec (redirect EL1) (redirect EL2)
  then peek ELR_EL12 m else peek ELR_EL1 m.
Proof.
  intros R.
  assert (H : redirected m = false).
  { unfold redirected, relayed in *.
    apply andb_true_iff in R as [R _]. apply andb_true_iff in R as [Hh Hlo].
    rewrite (hypercall_not_el0 m Hh), Hh. cbn [orb andb].
    apply Z.eqb_neq. apply Z.leb_le in Hlo. lia. }
  rewrite (fault_address_formula m H), R. cbn [cell].
  destruct (bank_eq_dec (redirect EL1) (redirect EL2)) as [E|N].
  - rewrite E. apply upd_reg_same.
  - rewrite !upd_reg_other by congruence. reflexivity.
Qed.

(** What the relay leaves of the machine of an exception it does not
    redirect. *)
Lemma relay_frame m :
  redirected m = false ->
  exists m1,
    exc_sync_relay m = Next (relayed m) m1
    /\ exc_guard m1 = exc_guard m /\ exc_count m1 = exc_count m
    /\ ctx m1 = ctx m /\ mem32 m1 = mem32 m
    /\ cur_el2 m1 = cur_el2 m /\ cur_gl12 m1 = cur_gl12 m
    /\ (relayed m = false -> sysregs m1 = sysregs m)
    /\ (silent m = true -> unknown_hvc m = false -> console m1 = console m).
Proof.
  intros H.
  destruct (relay_cases m H) as [(_ & R & U & E)|[(R & U & E)|(U & R & E)]];
    rewrite R, E; eexists; (split; [reflexivity|]).
  - destruct (silent m); repeat split; try reflexivity; discriminate.
  - destruct (silent m); repeat split; try reflexivity; discriminate.
  - repeat split. intros _ Uf. congruence.
Qed.

(** The handler of an exception that is not redirected is the guard engine
    run on a machine that has the guard, the counter, the context and the
    memory of the entry. *)
Lemma exc_sync_guarded regs m :
  redirected m = false ->
  exists m2,
    exc_sync regs m = exc_sync_guard m2
    /\ exc_guard m2 = exc_guard m /\ exc_count m2 = exc_count m
    /\ ctx m2 = ctx m /\ mem32 m2 = mem32 m
    /\ cur_el2 m2 = cur_el2 m /\ cur_gl12 m2 = cur_gl12 m
    /\ peek ELR_EL1 m2 = fault_address m
    /\ (forall r, relayed m = false ->
                  cell r <> SYS_IMP_APL_L2C_ERR_STS -> peek r m2 = peek r m)
    /\ (silent m = true -> unknown_hvc m = false -> console m2 = console m).
Proof.
  intros H. unfold fault_address.
  destruct (relay_frame m H)
    as (m1 & E & Hg1 & Hc1 & Hctx1 & Hmem1 & Hel1 & Hgl1 & Hreg1 & Hcon1).
  rewrite (exc_sync_next regs m _ _ E), E. cbn [final].
  destruct (report_then_guard regs (relayed m) m1) as (m2 & E2 & Hr & Hs).
  exists m2. split; [exact E2|].
  pose proof Hr as (Hel2 & Hgl2 & _ & Hmem2 & Hctx2 & Hg2 & Hc2 & Hreg2 & _).
  split; [congruence|]. split; [congruence|]. split; [congruence|].
  split; [congruence|]. split; [congruence|]. split; [congruence|].
  split; [|split].
  - apply (reported_peek _ _ ELR_EL1 Hr). cbn; discriminate.
  - intros r Rf Hne. rewrite (reported_peek _ _ r Hr Hne).
    unfold peek. now rewrite (Hreg1 Rf).
  - intros S U.
    assert (S1 : silent m1 = true) by (unfold silent in *; now rewrite Hg1).
    rewrite (Hs S1). now apply Hcon1.
Qed.

End Whole.

(** ** The hypervisor trap relay *)

Section RelayClaims.

Context {P : Platform}.

(** C1.  A hypercall of the guest (core at EL2 and outside the guarded
    level, selector nibble 5, class [hvc in a64]) whose immediate lies in
    [0x10..0x1f] makes the relay copy the guest's shadow registers into the
    host's: afterwards [SPSR_EL2] reads what [SPSR_EL12] read and
    [ELR_EL2] what [ELR_EL12] read; the local [el12] is set, and the
    handler goes on with the shared report and guard engine instead of
    returning at once. *)
Theorem relay_copies_guest_shadow regs m :
  relayed m = true ->
  exists m1,
    exc_sync_relay m = Next true m1
    /\ peek SPSR_EL2 m1 = peek SPSR_EL12 m
    /\ peek ELR_EL2 m1 = peek ELR_EL12 m
    /\ exc_sync regs m = (exc_sync_report regs true;; exc_sync_guard) m1
    /\ (exists m2, reported m1 m2 /\ exc_sync regs m = exc_sync_guard m2)
    /\ forall m', exc_sync regs m <> Done m'.
Proof.
  intros R. pose proof (relay_relayed m R) as E. cbv zeta in E.
  eexists. split; [exact E|].
  pose proof (exc_sync_next regs m _ _ E) as En.
  split; [|split; [|split; [exact En|]]].
  - unfold peek at 1. cbn [sysregs set_sysregs cell].
    rewrite upd_reg_other by discriminate. apply upd_reg_same.
  - unfold peek at 1. cbn [sysregs set_sysregs]. apply upd_reg_same.
  - match type of En with
    | _ = (_;; _) ?m1 =>
        destruct (report_then_guard regs true m1) as (m2 & E2 & Hr & _)
    end.
    rewrite En, E2. split.
    + exists m2. split; [exact Hr|reflexivity].
    + apply guard_not_done.
Qed.

(** C2, as the code has it.  A hypercall whose immediate is neither [0]
    nor in [0x10..0x1f] is reported by the dispatch, also under the
    silence flag; the dispatch writes no register and does not halt, and
    hands over to the shared report and guard engine with [el12] clear.
    [SPSR_EL2] reads the same when the handler is over.  Whether the
    machine is halted is the guard engine's decision: it is rebooted when
    the guard is in none of the three recovering modes, and the handler
    comes back when it is in one of them. *)
Theorem unknown_hvc_reported_then_guarded regs m :
  unknown_hvc m = true ->
  let m1 := emit (Printf "Unknown HVC: 0x%x\n" [Int (hvc_imm m)]) m in
  exc_sync_relay m = Next false m1
  /\ sysregs m1 = sysregs m
  /\ exc_sync regs m = (exc_sync_report regs false;; exc_sync_guard) m1
  /\ peek SPSR_EL2 (final (exc_sync regs m)) = peek SPSR_EL2 m
  /\ (guard_type m <> GUARD_SKIP -> guard_type m <> GUARD_MARK ->
      guard_type m <> GUARD_RETURN -> returns (exc_sync regs m) = false)
  /\ (guard_type m = GUARD_SKIP \/ guard_type m = GUARD_MARK
      \/ guard_type m = GUARD_RETURN -> returns (exc_sync regs m) = true).
Proof.
  intros U m1. pose proof (relay_unknown_hvc m U) as E. fold m1 in E.
  split; [exact E|]. split; [reflexivity|].
  split; [exact (exc_sync_next regs m _ _ E)|].
  assert (H : redirected m = false).
  { unfold redirected, unknown_hvc in *.
    apply andb_true_iff in U as [U _]. apply andb_true_iff in U as [Hh Hz].
    apply negb_true_iff in Hz.
    now rewrite (hypercall_not_el0 m Hh), Hh, Hz. }
  assert (R : relayed m = false).
  { destruct (relay_cases m H) as [(_ & R & _)|[(_ & U' & _)|(_ & R & _)]];
      congruence. }
  destruct (exc_sync_guarded regs m H)
    as (m2 & E2 & Hg & _ & _ & _ & _ & _ & _ & Hreg & _).
  assert (T : guard_type m2 = guard_type m) by (unfold guard_type; now rewrite Hg).
  assert (Hspsr : peek SPSR_EL2 m2 = peek SPSR_EL2 m)
    by (apply Hreg; [exact R|cbn; discriminate]).
  rewrite E2. clear E2. revert T Hspsr.
  unfold guard_type, exc_sync_guard. run. intros T Hspsr.
  rewrite T.
  destruct (Z.eqb_spec (Z.land (exc_guard m) GUARD_TYPE_MASK) GUARD_SKIP);
    [|destruct (Z.eqb_spec (Z.land (exc_guard m) GUARD_TYPE_MASK) GUARD_MARK);
      [|destruct (Z.eqb_spec (Z.land (exc_guard m) GUARD_TYPE_MASK)
                             GUARD_RETURN)]];
    run;
    try (destruct (Z.land (exc_guard m2) GUARD_SILENT =? 0));
    try (destruct (Z.land GUARD_OFF GUARD_SILENT =? 0));
    run;
    (split; [|split; [intros; try reflexivity; contradiction
                     |intros; try reflexivity; intuition congruence]]);
    try exact Hspsr;
    (rewrite upd_reg_other by (cbn; discriminate); exact Hspsr).
Qed.

(** C6.  Selector nibble 0 with class [brk (a64)] is the clean return
    from EL0: the handler writes [0x09] (EL2h) to [SPSR_EL1] and the
    return thunk to [ELR_EL1] and returns at once.  Nothing is printed,
    the guard and the counter are as they were and the context is
    untouched, whatever the guard mode. *)
Theorem el0_clean_return_bypasses regs m :
  el0_clean_return m = true ->
  exists m',
    exc_sync regs m = Done m'
    /\ peek SPSR_EL1 m' = 0x09 /\ peek ELR_EL1 m' = el0_ret
    /\ console m' = console m
    /\ exc_guard m' = exc_guard m /\ exc_count m' = exc_count m
    /\ ctx m' = ctx m.
Proof.
  intros H. eexists.
  split; [apply exc_sync_done, relay_el0_return, H|].
  unfold peek. cbn [sysregs set_sysregs console exc_guard exc_count ctx cell].
  rewrite upd_reg_same, upd_reg_other by discriminate.
  rewrite upd_reg_same. repeat split.
Qed.

(** C8, as the code has it.  The hypercall dispatch, and with it the
    redirection to the EL1 return thunk and the copy of the guest's
    shadow registers, is made only on a core at EL2: when the core is not
    at EL2 no exception is a hypercall, and an exception that is not the
    clean return from EL0 goes straight to the report and the guard
    engine, with [el12] clear and every register as it was.  The test for
    the clean return from EL0 is made at every level. *)
Theorem hypercall_dispatch_only_at_el2 regs m :
  cur_el2 m = false ->
  hypercall m = false
  /\ (el0_clean_return m = false ->
      exists m1,
        exc_sync_relay m = Next false m1
        /\ sysregs m1 = sysregs m
        /\ exc_sync regs m = (exc_sync_report regs false;; exc_sync_guard) m1)
  /\ (el0_clean_return m = true ->
      exists m', exc_sync regs m = Done m' /\ peek SPSR_EL1 m' = 0x09
                 /\ peek ELR_EL1 m' = el0_ret).
Proof.
  intros Hel.
  assert (Hh : hypercall m = false) by (unfold hypercall; now rewrite Hel).
  split; [exact Hh|]. split.
  - intros H0. pose proof (relay_direct m H0 Hh) as E.
    eexists. split; [exact E|]. split.
    + destruct (silent m); reflexivity.
    + exact (exc_sync_next regs m _ _ E).
  - intros H0.
    eexists. split; [apply exc_sync_done, relay_el0_return, H0|].
    unfold peek. cbn [sysregs set_sysregs cell].
    rewrite upd_reg_same, upd_reg_other by discriminate.
    rewrite upd_reg_same. split; reflexivity.
Qed.

End RelayClaims.

(** ** The guard engine *)

Section GuardClaims.

Context {P : Platform}.

Lemma guard_enum_distinct :
  guard_enum_ok = true ->
  GUARD_OFF <> GUARD_SKIP /\ GUARD_OFF <> GUARD_MARK
  /\ GUARD_OFF <> GUARD_RETURN /\ GUARD_SKIP <> GUARD_MARK
  /\ GUARD_SKIP <> GUARD_RETURN /\ GUARD_MARK <> GUARD_RETURN
  /\ Z.land GUARD_OFF GUARD_TYPE_MASK = GUARD_OFF.
Proof.
  unfold guard_enum_ok. intros H.
  repeat (apply andb_true_iff in H as [H ?]).
  repeat match goal with
         | X : negb _ = true |- _ => apply negb_true_iff, Z.eqb_neq in X
         | X : (_ =? _) = true |- _ => apply Z.eqb_eq in X
         end.
  repeat split; assumption.
Qed.

(** A fault with the guard off is fatal. *)
Lemma guard_off_fatal regs m :
  guard_enum_ok = true ->
  exc_guard m = GUARD_OFF -> redirected m = false ->
  exists h, exc_sync regs m = Halt h.
Proof.
  intros Hok Hoff Hr.
  destruct (guard_enum_distinct Hok) as (H1 & H2 & H3 & _ & _ & _ & H7).
  destruct (exc_sync_guarded regs m Hr) as (m2 & E & Hg & _).
  assert (T : guard_type m2 = GUARD_OFF).
  { unfold guard_type. now rewrite Hg, Hoff. }
  exists m2. rewrite E. apply guard_fatal; rewrite T; assumption.
Qed.

(** C3.  A fault that reaches the guard engine in mode [RETURN] puts the
    poison pattern in slot 0 of the context, commits the link register
    saved in slot 30 to [ELR_EL1], counts the exception and sets the guard
    to [GUARD_OFF]; a further fault without rearming is then fatal. *)
Theorem guard_return_one_shot regs m :
  guard_enum_ok = true ->
  redirected m = false ->
  guard_type m = GUARD_RETURN ->
  - 2 ^ 31 <= exc_count m < INT_MAX ->
  exists m',
    exc_sync regs m = Next tt m'
    /\ ctx m' 0 = POISON
    /\ peek ELR_EL1 m' = ctx m 30
    /\ exc_count m' = exc_count m + 1
    /\ exc_guard m' = GUARD_OFF
    /\ forall n, exc_guard n = exc_guard m' -> redirected n = false ->
                 exists h, exc_sync regs n = Halt h.
Proof.
  intros Hok Hr Ht Hc.
  destruct (guard_enum_distinct Hok) as (_ & _ & _ & _ & Hsr & Hmr & _).
  destruct (exc_sync_guarded regs m Hr)
    as (m2 & E & Hg & Hcnt & Hctx & _).
  assert (T : guard_type m2 = GUARD_RETURN).
  { unfold guard_type in *. now rewrite Hg. }
  rewrite E, (guard_return m2 Hsr Hmr T).
  eexists. split; [reflexivity|].
  rewrite recovered_elr, recovered_count, recovered_guard, recovered_ctx.
  cbn [ctx exc_count exc_guard set_exc_guard set_ctx].
  rewrite Hctx, Hcnt, upd_slot_same.
  repeat split.
  - apply s32_small. unfold INT_MAX in *. lia.
  - intros n Hn Hrn. apply guard_off_fatal; assumption.
Qed.

(** C4.  A fault that reaches the guard engine in mode [MARK] writes the
    poison pattern to the slot of the context given by the low five bits
    of the faulting instruction word and to no other slot, and resumes
    four bytes after the fault address. *)
Theorem guard_mark_poisons_destination_only regs m :
  GUARD_SKIP <> GUARD_MARK ->
  redirected m = false ->
  guard_type m = GUARD_MARK ->
  let R := mark_slot (mem32 m (fault_address m)) in
  exists m',
    exc_sync regs m = Next tt m'
    /\ R = Z.land (mem32 m (fault_address m)) 0x1f
    /\ ctx m' R = POISON
    /\ (forall j, j <> R -> ctx m' j = ctx m j)
    /\ peek ELR_EL1 m' = u64 (fault_address m + 4)
    /\ (relayed m = false -> fault_address m = peek ELR_EL1 m).
Proof.
  intros Hd Hr Ht R.
  destruct (exc_sync_guarded regs m Hr)
    as (m2 & E & Hg & _ & Hctx & Hmem & _ & _ & Hpc & _).
  assert (T : guard_type m2 = GUARD_MARK).
  { unfold guard_type in *. now rewrite Hg. }
  rewrite E, (guard_mark m2 Hd T).
  eexists. split; [reflexivity|].
  rewrite recovered_elr, recovered_ctx.
  cbn [ctx set_ctx]. rewrite Hpc, Hmem, Hctx. fold R.
  repeat split.
  - apply upd_slot_same.
  - intros j Hj. now apply upd_slot_other.
  - intros Hrel. now apply fault_address_direct.
Qed.

(** One fault under [SKIP]. *)
Lemma guard_skip_once regs m :
  guard_type m = GUARD_SKIP ->
  redirected m = false ->
  exists m',
    exc_sync regs m = Next tt m'
    /\ exc_count m' = s32 (exc_count m + 1)
    /\ exc_guard m' = exc_guard m
    /\ peek ELR_EL1 m' = u64 (fault_address m + 4)
    /\ ctx m' = ctx m
    /\ cur_el2 m' = cur_el2 m /\ cur_gl12 m' = cur_gl12 m.
Proof.
  intros Ht Hr.
  destruct (exc_sync_guarded regs m Hr)
    as (m2 & E & Hg & Hcnt & Hctx & _ & Hel & Hgl & Hpc & _).
  assert (T : guard_type m2 = GUARD_SKIP).
  { unfold guard_type in *. now rewrite Hg. }
  rewrite E, (guard_skip m2 T).
  eexists. split; [reflexivity|].
  rewrite recovered_elr, recovered_count, recovered_guard, recovered_ctx.
  destruct (recovered_levels (u64 (peek ELR_EL1 m2 + 4)) m2) as [-> ->].
  rewrite Hpc, Hcnt, Hg, Hctx, Hel, Hgl. repeat split.
Qed.

(** What the classification of the next entry depends on. *)
Lemma take_ext e m n :
  cur_el2 n = cur_el2 m -> cur_gl12 n = cur_gl12 m ->
  redirected (take e n) = redirected (take e m)
  /\ (redirected (take e m) = false ->
      fault_address (take e n) = fault_address (take e m)).
Proof.
  intros H1 H2.
  assert (Hh : hypercall (take e n) = hypercall (take e m)).
  { unfold hypercall, peek, take. cbn [sysregs cur_el2 cur_gl12].
    now rewrite H1, H2. }
  assert (Hred : redirected (take e n) = redirected (take e m)).
  { unfold redirected. rewrite Hh. reflexivity. }
  split; [exact Hred|]. intros Hr.
  rewrite !fault_address_formula by congruence.
  unfold relayed. rewrite Hh. reflexivity.
Qed.

Lemma skip_each regs es :
  forall m n,
    cur_el2 n = cur_el2 m -> cur_gl12 n = cur_gl12 m ->
    guard_type n = GUARD_SKIP ->
    Forall (fun e => redirected (take e m) = false) es ->
    - 2 ^ 31 <= exc_count n ->
    exc_count n + Z.of_nat (List.length es) <= INT_MAX ->
    exists n',
      exc_sync_each regs es n =
      Next (map (fun e => u64 (fault_address (take e m) + 4)) es) n'
      /\ exc_count n' = exc_count n + Z.of_nat (List.length es)
      /\ exc_guard n' = exc_guard n.
Proof.
  induction es as [|e es IH]; intros m n Hel Hgl Ht Hall Hlo Hhi.
  - exists n. cbn. repeat split. lia.
  - inversion Hall as [|? ? He Hes]; subst.
    destruct (take_ext e m n Hel Hgl) as [Hred Hfa].
    assert (Hr : redirected (take e n) = false) by congruence.
    assert (Ht' : guard_type (take e n) = GUARD_SKIP) by exact Ht.
    destruct (guard_skip_once regs (take e n) Ht' Hr)
      as (n1 & E & Hc & Hg & Hpc & _ & Hel1 & Hgl1).
    cbn [exc_count exc_guard cur_el2 cur_gl12 take] in Hc, Hg, Hel1, Hgl1.
    cbn [List.length] in Hhi. rewrite Nat2Z.inj_succ in Hhi.
    rewrite s32_small in Hc by (unfold INT_MAX in *; lia).
    destruct (IH m n1) as (n' & E' & Hc' & Hg');
      try congruence; try lia.
    { unfold guard_type in *. now rewrite Hg. }
    exists n'. cbn [exc_sync_each map]. rewrite E. unfold bind.
    rewrite E'. unfold pure. rewrite Hpc, (Hfa He).
    repeat split.
    + rewrite Hc', Hc. cbn [List.length]. lia.
    + congruence.
Qed.

(** C5.  With [SKIP] armed, a fault that reaches the guard engine counts
    one exception, leaves the guard as it is and resumes four bytes after
    the fault address; so a run of faults counts as many exceptions as
    there are faults, each resumed four bytes after its fault address. *)
Theorem guard_skip_counts_every_fault regs m :
  guard_type m = GUARD_SKIP ->
  - 2 ^ 31 <= exc_count m ->
  (redirected m = false -> exc_count m < INT_MAX ->
   exists m',
     exc_sync regs m = Next tt m'
     /\ exc_count m' = exc_count m + 1
     /\ exc_guard m' = exc_guard m
     /\ peek ELR_EL1 m' = u64 (fault_address m + 4)
     /\ (relayed m = false -> fault_address m = peek ELR_EL1 m)
     /\ ctx m' = ctx m)
  /\ (forall es,
        Forall (fun e => redirected (take e m) = false) es ->
        exc_count m + Z.of_nat (List.length es) <= INT_MAX ->
        exists m',
          exc_sync_each regs es m =
          Next (map (fun e => u64 (fault_address (take e m) + 4)) es) m'
          /\ exc_count m' = exc_count m + Z.of_nat (List.length es)
          /\ exc_guard m' = exc_guard m).
Proof.
  intros Ht Hlo. split.
  - intros Hr Hhi.
    destruct (guard_skip_once regs m Ht Hr)
      as (m' & E & Hc & Hg & Hpc & Hctx & _).
    exists m'. rewrite s32_small in Hc by (unfold INT_MAX in *; lia).
    repeat split; try assumption.
    intros Hrel. now apply fault_address_direct.
  - intros es Hall Hhi.
    now apply (skip_each regs es m m).
Qed.

End GuardClaims.

(** ** The decoder tables and the report *)

Section Decoder.

Context {P : Platform}.

Lemma option_string_eqb_eq a b : option_string_eqb a b = true -> a = b.
Proof.
  destruct a as [s|], b as [t|]; cbn; try discriminate; try reflexivity.
  intros H. apply String.eqb_eq in H. now subst.
Qed.

Lemma assoc_in i s l :
  (named i l <= 1)%nat -> In (i, s) l -> assoc i l = Some s.
Proof.
  unfold named. induction l as [|[k t] l IH]; cbn [assoc filter fst In].
  - contradiction.
  - intros Hn [E|Hin].
    + inversion E; subst. now rewrite Z.eqb_refl.
    + destruct (Z.eqb_spec k i) as [->|Hne].
      * cbn [List.length] in Hn.
        assert (Hz : List.length (filter (fun e => fst e =? i) l) = 0%nat) by lia.
        apply length_zero_iff_nil in Hz.
        assert (Hin' : In (i, s) (filter (fun e => fst e =? i) l)).
        { apply filter_In. split; [exact Hin|]. cbn. apply Z.eqb_refl. }
        rewrite Hz in Hin'. contradiction.
      * now apply IH.
Qed.

Lemma assoc_none i l : (forall s, ~ In (i, s) l) -> assoc i l = None.
Proof.
  induction l as [|[k t] l IH]; cbn [assoc In]; intros H.
  - reflexivity.
  - destruct (Z.eqb_spec k i) as [->|Hne].
    + exfalso. apply (H t). now left.
    + apply IH. intros s Hs. apply (H s). now right.
Qed.

Lemma ec_table_checked : forallb ec_entry_ok (seq 0 64) = true.
Proof. vm_compute. reflexivity. Qed.

Lemma ec_entry_ok_at i :
  0 <= i < 64 ->
  at_index ec_table i = assoc i ec_table_init
  /\ (named i ec_table_init <= 1)%nat
  /\ at_index ec_table i <> Some "?".
Proof.
  intros Hi.
  pose proof ec_table_checked as H.
  rewrite forallb_forall in H.
  specialize (H (Z.to_nat i)).
  assert (Hin : In (Z.to_nat i) (seq 0 64)) by (apply in_seq; lia).
  specialize (H Hin). unfold ec_entry_ok in H.
  rewrite Z2Nat.id in H by lia.
  apply andb_true_iff in H as [H H3]. apply andb_true_iff in H as [H1 H2].
  split; [now apply option_string_eqb_eq|].
  split; [now apply Nat.leb_le|].
  intros E. rewrite E in H3. cbn in H3. discriminate.
Qed.

(** The lines of the report. *)
Ltac find_line :=
  repeat (apply in_or_app; first [right; left; reflexivity | left]).

Lemma print_regs_lines regs (el12 : bool) m :
  let esr := peek (if el12 then ESR_EL12 else ESR_EL1) m in
  let out := console (final (print_regs regs el12 m)) in
  In (Printf "SP:       0x%lx\n" [Int (u64 (regs + 256))]) out
  /\ In (Printf "ESR_EL1:  0x%lx (%s)\n" [Int esr; Str (ec_desc_shown esr)])
        out.
Proof.
  destruct m as [sr el2 gl ec mem cx g c con].
  unfold print_regs, get_exception_source, get_exception_level,
    ec_desc_shown, exception_class, peek.
  destruct el12, gl, ec; run_record; split; find_line.
Qed.

(** C9.  The class of a syndrome value is one of the 64 encodings.  For
    each of them the class table holds the string its initialiser gives
    when there is one and a null pointer when there is none; the line the
    report prints for the syndrome carries the table's string, and the
    question mark exactly when the entry is null, no string of the table
    being the question mark. *)
Theorem ec_table_lookup_and_fallback :
  List.length ec_table = 64%nat
  /\ (forall esr, 0 <= exception_class esr < 64)
  /\ (forall i s, 0 <= i < 64 -> In (i, s) ec_table_init ->
                  at_index ec_table i = Some s)
  /\ (forall i, 0 <= i < 64 -> (forall s, ~ In (i, s) ec_table_init) ->
                at_index ec_table i = None)
  /\ (forall i s, 0 <= i < 64 -> at_index ec_table i = Some s ->
                  In (i, s) ec_table_init /\ s <> "?")
  /\ (forall regs (el12 : bool) m,
        let esr := peek (if el12 then ESR_EL12 else ESR_EL1) m in
        In (Printf "ESR_EL1:  0x%lx (%s)\n" [Int esr; Str (ec_desc_shown esr)])
           (console (final (print_regs regs el12 m))))
  /\ (forall esr s, at_index ec_table (exception_class esr) = Some s ->
                    ec_desc_shown esr = s)
  /\ (forall esr, at_index ec_table (exception_class esr) = None <->
                  ec_desc_shown esr = "?").
Proof.
  split; [reflexivity|].
  split; [exact exception_class_range|].
  split.
  { intros i s Hi Hin.
    destruct (ec_entry_ok_at i Hi) as (E & Hn & _).
    rewrite E. now apply assoc_in. }
  split.
  { intros i Hi Hno.
    destruct (ec_entry_ok_at i Hi) as (E & _).
    rewrite E. now apply assoc_none. }
  split.
  { intros i s Hi Hs.
    destruct (ec_entry_ok_at i Hi) as (E & _ & Hq).
    split.
    - rewrite E in Hs. clear E Hq.
      induction ec_table_init as [|[k t] l IH]; cbn [assoc] in Hs.
      + discriminate.
      + destruct (Z.eqb_spec k i) as [->|Hne].
        * inversion Hs; subst. now left.
        * right. now apply IH.
    - intros ->. now apply Hq. }
  split.
  { intros regs el12 m. apply print_regs_lines. }
  split.
  { intros esr s Hs. unfold ec_desc_shown. now rewrite Hs. }
  intros esr. unfold ec_desc_shown.
  destruct (at_index ec_table (exception_class esr)) as [s|] eqn:E.
  - destruct (ec_entry_ok_at _ (exception_class_range esr)) as (_ & _ & Hq).
    split; [discriminate|]. intros ->. now rewrite E in Hq.
  - split; reflexivity.
Qed.

(** C10.  The slot the [MARK] mode writes is the instruction word masked
    with [0x1f], a number from 0 to 31 whatever the word; a word whose low
    five bits are all set puts the poison pattern in slot 31, past the
    slots 0 to 30 of the general-purpose registers, and every slot written
    ends within the 256 bytes from the context pointer that the report
    takes for the stack pointer. *)
Theorem mark_slot_within_save_area regs m :
  GUARD_SKIP <> GUARD_MARK ->
  redirected m = false ->
  guard_type m = GUARD_MARK ->
  let insn := mem32 m (fault_address m) in
  mark_slot insn = Z.land insn 0x1f
  /\ 0 <= mark_slot insn <= 31
  /\ ctx (final (exc_sync regs m)) (mark_slot insn) = POISON
  /\ (Z.land insn 0x1f = 31 ->
      ctx (final (exc_sync regs m)) 31 = POISON /\ 30 < mark_slot insn)
  /\ 8 * mark_slot insn + 8 <= 256
  /\ forall el12 n,
       In (Printf "SP:       0x%lx\n" [Int (u64 (regs + 256))])
          (console (final (print_regs regs el12 n))).
Proof.
  intros Hd Hr Ht insn.
  assert (Hrange : 0 <= mark_slot insn <= 31).
  { unfold mark_slot. pose proof (land_ones_range insn 5) as H.
    change (Z.ones 5) with 0x1f in H. lia. }
  assert (Hw : ctx (final (exc_sync regs m)) (mark_slot insn) = POISON).
  { destruct (exc_sync_guarded regs m Hr)
      as (m2 & E & Hg & _ & Hctx & Hmem & _ & _ & Hpc & _).
    assert (T : guard_type m2 = GUARD_MARK).
    { unfold guard_type in *. now rewrite Hg. }
    rewrite E, (guard_mark m2 Hd T). cbn [final].
    rewrite recovered_ctx. cbn [ctx set_ctx].
    rewrite Hpc, Hmem. apply upd_slot_same. }
  split; [reflexivity|]. split; [exact Hrange|]. split; [exact Hw|].
  split.
  { intros H31. unfold mark_slot in *. rewrite H31 in *. split; [exact Hw|lia]. }
  split; [lia|].
  intros el12 n. apply print_regs_lines.
Qed.

End Decoder.

(** ** The silence flag *)

Section Silence.

Context {P : Platform}.

(** Under the silence flag a fault resolved in mode [SKIP] or [MARK] prints
    nothing, unless it came as a hypercall the relay does not know. *)
Lemma silent_skip_mark_quiet regs m :
  GUARD_SKIP <> GUARD_MARK ->
  silent m = true -> redirected m = false -> unknown_hvc m = false ->
  guard_type m = GUARD_SKIP \/ guard_type m = GUARD_MARK ->
  console (final (exc_sync regs m)) = console m.
Proof.
  intros Hd Hs Hr Hu Ht.
  destruct (exc_sync_guarded regs m Hr)
    as (m2 & E & Hg & _ & _ & _ & _ & _ & _ & _ & Hq).
  assert (S2 : silent m2 = true) by (unfold silent in *; now rewrite Hg).
  rewrite E. destruct Ht as [Ht|Ht].
  - rewrite guard_skip by (unfold guard_type in *; now rewrite Hg).
    cbn [final]. rewrite recovered_console, S2. now apply Hq.
  - rewrite guard_mark by (try assumption; unfold guard_type in *; now rewrite Hg).
    cbn [final]. rewrite recovered_console.
    change (silent (set_ctx _ m2)) with (silent m2). rewrite S2. now apply Hq.
Qed.

(** In mode [RETURN] the guard is set to [GUARD_OFF] before the last test
    of the flag, and the recovery line is printed. *)
Lemma silent_return_prints regs m :
  GUARD_SKIP <> GUARD_RETURN -> GUARD_MARK <> GUARD_RETURN ->
  Z.land GUARD_OFF GUARD_SILENT = 0 ->
  silent m = true -> redirected m = false -> unknown_hvc m = false ->
  guard_type m = GUARD_RETURN ->
  console (final (exc_sync regs m)) =
  (console m
   ++ [Printf "Recovering from exception (ELR=0x%lx)\n" [Int (ctx m 30)]])%list.
Proof.
  intros Hs Hm Hoff Hsil Hr Hu Ht.
  destruct (exc_sync_guarded regs m Hr)
    as (m2 & E & Hg & _ & Hctx & _ & _ & _ & _ & _ & Hq).
  rewrite E.
  rewrite guard_return by (try assumption; unfold guard_type in *; now rewrite Hg).
  cbn [final]. rewrite recovered_console.
  unfold silent at 1. cbn [exc_guard set_exc_guard]. rewrite Hoff.
  cbn [console set_exc_guard set_ctx Z.eqb negb].
  rewrite Hctx. now rewrite (Hq Hsil Hu).
Qed.

End Silence.

(** C7.  With [GUARD_RETURN | GUARD_SILENT] armed, a data abort is handled
    without the banner and without the report, and the recovery line is
    printed all the same: the handler has set the guard to [GUARD_OFF],
    flag included, before it tests the flag for that line. *)
Theorem return_silent_prints_recovery :
  @silent Sample.at_el2 Sample.silent_return_fault = true
  /\ @guard_type Sample.at_el2 Sample.silent_return_fault
     = @GUARD_RETURN Sample.at_el2
  /\ console Sample.silent_return_fault = []
  /\ returns (@exc_sync Sample.at_el2 Sample.regs Sample.silent_return_fault)
     = true
  /\ console (final (@exc_sync Sample.at_el2 Sample.regs
                               Sample.silent_return_fault))
     = [Printf "Recovering from exception (ELR=0x%lx)\n" [Int 0x101e]].
Proof. vm_compute. repeat split. Qed.

(** ** The theorems at concrete machines *)

Module Witness.

Import Sample.

(** C1 at a fault of the guest handed down with immediate [0x11]. *)
Lemma relay_copies_guest_shadow_witness :
  @relayed at_el2 relayed_fault = true
  /\ exists m1,
      @exc_sync_relay at_el2 relayed_fault = Next true m1
      /\ @peek at_el2 SPSR_EL2 m1 = 0x3c4
      /\ @peek at_el2 ELR_EL2 m1 = 0x820000100.
Proof.
  assert (H : @relayed at_el2 relayed_fault = true) by (vm_compute; reflexivity).
  split; [exact H|].
  destruct (@relay_copies_guest_shadow at_el2 regs relayed_fault H)
    as (m1 & E & Hs & He & _).
  exists m1. split; [exact E|]. split.
  - rewrite Hs. vm_compute. reflexivity.
  - rewrite He. vm_compute. reflexivity.
Defined.

(** C2: the unknown hypercall with the guard off reboots the machine. *)
Lemma unknown_hvc_halts_when_guard_off :
  @unknown_hvc at_el2 unknown_call_off = true
  /\ returns (@exc_sync at_el2 regs unknown_call_off) = false.
Proof. vm_compute. split; reflexivity. Qed.

(** C2 as the code has it, at the unknown hypercall under [SKIP]. *)
Lemma unknown_hvc_reported_then_guarded_witness :
  @unknown_hvc at_el2 unknown_call_skip = true
  /\ @exc_sync_relay at_el2 unknown_call_skip
     = Next false (emit (Printf "Unknown HVC: 0x%x\n" [Int 0x20])
                        unknown_call_skip)
  /\ returns (@exc_sync at_el2 regs unknown_call_skip) = true.
Proof.
  assert (H : @unknown_hvc at_el2 unknown_call_skip = true)
    by (vm_compute; reflexivity).
  split; [exact H|].
  destruct (@unknown_hvc_reported_then_guarded at_el2 regs unknown_call_skip H)
    as (E & _ & _ & _ & _ & Hret).
  split; [exact E|].
  apply Hret. left. vm_compute. reflexivity.
Defined.

(** C3 at a data abort under [RETURN]. *)
Lemma guard_return_one_shot_witness :
  exists m',
    @exc_sync at_el2 regs return_fault = Next tt m'
    /\ ctx m' 0 = 0xacce5515abad1dea
    /\ @peek at_el2 ELR_EL1 m' = 0x101e
    /\ exc_count m' = 1
    /\ exc_guard m' = 0
    /\ exists h, @exc_sync at_el2 regs off_fault = Halt h.
Proof.
  assert (H1 : @guard_enum_ok at_el2 = true) by (vm_compute; reflexivity).
  assert (H2 : @redirected at_el2 return_fault = false)
    by (vm_compute; reflexivity).
  assert (H3 : @guard_type at_el2 return_fault = @GUARD_RETURN at_el2)
    by (vm_compute; reflexivity).
  assert (H4 : - 2 ^ 31 <= exc_count return_fault < INT_MAX)
    by (unfold INT_MAX; simpl; lia).
  destruct (@guard_return_one_shot at_el2 regs return_fault H1 H2 H3 H4)
    as (m' & E & H0 & He & Hc & Hg & Hfatal).
  exists m'. repeat split; try assumption.
  apply Hfatal.
  - rewrite Hg. reflexivity.
  - vm_compute. reflexivity.
Defined.

(** C4 at a data abort under [MARK] at [ldr x7, [x1]]. *)
Lemma guard_mark_poisons_destination_only_witness :
  exists m',
    @exc_sync at_el2 regs mark_fault = Next tt m'
    /\ ctx m' 7 = 0xacce5515abad1dea
    /\ ctx m' 0 = 0x1000 /\ ctx m' 30 = 0x101e /\ ctx m' 31 = 0x101f
    /\ @peek at_el2 ELR_EL1 m' = 0x810004004.
Proof.
  assert (H1 : @GUARD_SKIP at_el2 <> @GUARD_MARK at_el2)
    by (vm_compute; discriminate).
  assert (H2 : @redirected at_el2 mark_fault = false)
    by (vm_compute; reflexivity).
  assert (H3 : @guard_type at_el2 mark_fault = @GUARD_MARK at_el2)
    by (vm_compute; reflexivity).
  destruct (@guard_mark_poisons_destination_only at_el2 regs mark_fault H1 H2 H3)
    as (m' & E & HR & Hp & Hother & He & _).
  assert (R7 : @mark_slot (mem32 mark_fault (@fault_address at_el2 mark_fault)) = 7)
    by (vm_compute; reflexivity).
  rewrite R7 in Hp, Hother.
  exists m'. split; [exact E|]. split; [exact Hp|].
  rewrite !Hother by discriminate.
  repeat split. rewrite He. vm_compute. reflexivity.
Defined.

(** C5 at three data aborts in a row under [SKIP]. *)
Lemma guard_skip_counts_every_fault_witness :
  exists m',
    @exc_sync_each at_el2 regs three_aborts skip_fault
    = Next [0x810004004; 0x810004004; 0x810004004] m'
    /\ exc_count m' = 3
    /\ exc_guard m' = 1.
Proof.
  assert (H1 : @guard_type at_el2 skip_fault = @GUARD_SKIP at_el2)
    by (vm_compute; reflexivity).
  assert (H2 : - 2 ^ 31 <= exc_count skip_fault) by (simpl; lia).
  destruct (@guard_skip_counts_every_fault at_el2 regs skip_fault H1 H2)
    as [_ Hall].
  destruct (Hall three_aborts) as (m' & E & Hc & Hg).
  - repeat constructor.
  - unfold INT_MAX. simpl. lia.
  - exists m'. split; [|split].
    + rewrite E. vm_compute. reflexivity.
    + rewrite Hc. reflexivity.
    + rewrite Hg. reflexivity.
Defined.

(** C6 at the [brk] of code at EL0, with the guard off. *)
Lemma el0_clean_return_bypasses_witness :
  exc_guard el0_return_el1 = @GUARD_OFF at_el1
  /\ exists m',
      @exc_sync at_el1 regs el0_return_el1 = Done m'
      /\ @peek at_el1 SPSR_EL1 m' = 0x09
      /\ @peek at_el1 ELR_EL1 m' = @el0_ret at_el1
      /\ console m' = [] /\ exc_count m' = 0.
Proof.
  split; [reflexivity|].
  assert (H : @el0_clean_return at_el1 el0_return_el1 = true)
    by (vm_compute; reflexivity).
  destruct (@el0_clean_return_bypasses at_el1 regs el0_return_el1 H)
    as (m' & E & Hs & He & Hc & _ & Hn & _).
  exists m'. repeat split; assumption.
Defined.

(** C8: on a core at EL1 the clean return from EL0 is redirected to the
    thunk all the same, with no report and no guard engine. *)
Lemma el0_return_redirected_at_el1 :
  cur_el2 el0_return_el1 = false
  /\ returned_early (@exc_sync at_el1 regs el0_return_el1) = true
  /\ @peek at_el1 SPSR_EL1 (final (@exc_sync at_el1 regs el0_return_el1)) = 0x09
  /\ @peek at_el1 ELR_EL1 (final (@exc_sync at_el1 regs el0_return_el1))
     = @el0_ret at_el1
  /\ @peek at_el1 ELR_EL1 el0_return_el1 = 0x5000
  /\ console (final (@exc_sync at_el1 regs el0_return_el1)) = [].
Proof. vm_compute. repeat split. Qed.

(** C8 as the code has it, at a data abort on a core at EL1. *)
Lemma hypercall_dispatch_only_at_el2_witness :
  @hypercall at_el1 skip_fault_el1 = false
  /\ exists m1,
      @exc_sync_relay at_el1 skip_fault_el1 = Next false m1
      /\ sysregs m1 = sysregs skip_fault_el1.
Proof.
  assert (H : cur_el2 skip_fault_el1 = false) by reflexivity.
  destruct (@hypercall_dispatch_only_at_el2 at_el1 regs skip_fault_el1 H)
    as (Hh & Hdirect & _).
  split; [exact Hh|].
  destruct Hdirect as (m1 & E & Hs & _).
  - vm_compute. reflexivity.
  - exists m1. split; assumption.
Defined.

(** C9 at the syndrome of a data abort and at one of an unassigned class. *)
Lemma ec_table_lookup_and_fallback_witness :
  at_index ec_table 0x25 = Some "data abort (current)"
  /\ at_index ec_table 0x3f = None
  /\ ec_desc_shown 0xfc000000 = "?".
Proof.
  destruct (@ec_table_lookup_and_fallback Sample.at_el2)
    as (_ & _ & Hsome & Hnone & _ & _ & _ & Hq).
  split; [|split].
  - apply Hsome; [lia|]. cbn. tauto.
  - apply Hnone; [lia|]. intros s Hin. cbn in Hin.
    repeat (destruct Hin as [Hin|Hin]; [inversion Hin|]). exact Hin.
  - apply Hq. vm_compute. reflexivity.
Defined.

(** C10 at a data abort under [MARK] at [ldr xzr, [x1]]. *)
Lemma mark_slot_within_save_area_witness :
  @mark_slot 0xf940003f = 31
  /\ ctx (final (@exc_sync at_el2 regs mark_fault_31)) 31 = 0xacce5515abad1dea
  /\ 8 * 31 + 8 <= 256.
Proof.
  assert (H1 : @GUARD_SKIP at_el2 <> @GUARD_MARK at_el2)
    by (vm_compute; discriminate).
  assert (H2 : @redirected at_el2 mark_fault_31 = false)
    by (vm_compute; reflexivity).
  assert (H3 : @guard_type at_el2 mark_fault_31 = @GUARD_MARK at_el2)
    by (vm_compute; reflexivity).
  destruct (@mark_slot_within_save_area at_el2 regs mark_fault_31 H1 H2 H3)
    as (_ & _ & _ & H31 & _).
  split; [vm_compute; reflexivity|].
  split; [|lia].
  apply H31. vm_compute. reflexivity.
Defined.

End Witness.

(** * Further properties *)

(** ** The decoder *)

Section DecoderMore.

Context {P : Platform}.

Lemma nibble_cases z :
  In (Z.land z 0xf) [0; 1; 2; 3; 4; 5; 6; 7; 8; 9; 10; 11; 12; 13; 14; 15].
Proof.
  pose proof (land_ones_range z 4) as H.
  change (Z.ones 4) with 0xf in H. cbn [In]. lia.
Qed.

Lemma land_1_testbit z : (Z.land z 1 =? 0) = negb (Z.testbit z 0).
Proof.
  change 1 with (Z.ones 1). rewrite Z.land_ones by lia.
  change (2 ^ 1) with 2. rewrite <- Z.bit0_mod.
  destruct (Z.testbit z 0); reflexivity.
Qed.

Lemma get_exception_source_eq (el12 : bool) m :
  get_exception_source el12 m =
  Next (match (if negb (Z.land (if cur_gl12 m
                                then sysregs m SYS_IMP_APL_ASPSR_GL1
                                else 0) 1 =? 0)
               then at_index gl_m_table
                      (Z.land (peek (if el12 then SPSR_EL12 else SPSR_EL1) m)
                              0xf)
               else at_index m_table
                      (Z.land (peek (if el12 then SPSR_EL12 else SPSR_EL1) m)
                              0xf))
        with
        | Some s => s
        | None => "?"
        end) m.
Proof.
  unfold get_exception_source, peek.
  destruct el12, (cur_gl12 m) eqn:G; run; rewrite G; reflexivity.
Qed.

(** X1.  [get_exception_source] reads and changes nothing, and never
    yields a null pointer: for the selector nibbles 0, 4, 5, 8 and 9 of the
    saved status it yields the label of the mode, with a leading G when the
    core is in the guarded level and bit 0 of ASPSR is set and a leading E
    otherwise; for every other nibble it yields the question mark. *)
Theorem exception_source_label (el12 : bool) m :
  let nibble := Z.land (peek (if el12 then SPSR_EL12 else SPSR_EL1) m) 0xf in
  let guest :=
    cur_gl12 m && Z.testbit (sysregs m SYS_IMP_APL_ASPSR_GL1) 0 in
  exists s,
    get_exception_source el12 m = Next s m
    /\ s = match mode_suffix nibble with
           | Some x => ((if guest then "G" else "E") ++ x)%string
           | None => "?"
           end
    /\ (s = "?" <-> ~ In nibble [0; 4; 5; 8; 9]).
Proof.
  cbv zeta. eexists. split; [apply get_exception_source_eq|].
  set (spsr := peek (if el12 then SPSR_EL12 else SPSR_EL1) m).
  rewrite land_1_testbit, negb_involutive.
  destruct (cur_gl12 m); cbn [andb];
    [destruct (Z.testbit (sysregs m SYS_IMP_APL_ASPSR_GL1) 0)|];
    pose proof (nibble_cases spsr) as N; cbn [In] in N;
    repeat (destruct N as [N|N]; [|try contradiction]);
    rewrite <- N; (split; [reflexivity|]); cbn;
    (split; [intros H; try discriminate H; intuition lia
            |intros H; try reflexivity; exfalso; apply H; tauto]).
Qed.

Lemma labels_distinct_inj l i j s :
  labels_distinct l = true -> In (i, s) l -> In (j, s) l -> i = j.
Proof.
  induction l as [|[k t] l IH]; cbn [labels_distinct In]; [contradiction|].
  intros H Hi Hj. apply andb_true_iff in H as [Hh Ht].
  rewrite forallb_forall in Hh.
  destruct Hi as [Ei|Hi], Hj as [Ej|Hj].
  - congruence.
  - inversion Ei; subst. specialize (Hh _ Hj). cbn in Hh.
    now rewrite String.eqb_refl in Hh.
  - inversion Ej; subst. specialize (Hh _ Hi). cbn in Hh.
    now rewrite String.eqb_refl in Hh.
  - now apply IH.
Qed.

Lemma ec_labels_complete i s :
  0 <= i < 64 -> at_index ec_table i = Some s -> In (i, s) ec_labels.
Proof.
  intros Hi E. unfold ec_labels. apply in_flat_map.
  exists (Z.to_nat i). split; [apply in_seq; lia|].
  rewrite Z2Nat.id by lia. rewrite E. now left.
Qed.

(** X2.  A label of the class table stands for one class only: two
    classes that carry the same label are the same class. *)
Theorem ec_label_identifies_class i j s :
  0 <= i < 64 -> 0 <= j < 64 ->
  at_index ec_table i = Some s -> at_index ec_table j = Some s -> i = j.
Proof.
  intros Hi Hj Ei Ej.
  apply (labels_distinct_inj ec_labels i j s).
  - vm_compute. reflexivity.
  - now apply ec_labels_complete.
  - now apply ec_labels_complete.
Qed.

End DecoderMore.

(** ** The report and the advisory handlers *)

Section ReportMore.

Context {P : Platform}.

Lemma print_regs_console regs (el12 : bool) m :
  exists o,
    console (final (print_regs regs el12 m)) = (console m ++ o)%list
    /\ map fmt_of o = report_formats (cur_gl12 m) (ecore m)
    /\ List.length o = (if cur_gl12 m then 24%nat else 23%nat).
Proof.
  destruct m as [sr el2 gl ec mem cx g c con].
  unfold print_regs, get_exception_source, get_exception_level.
  destruct el12, gl, ec; run_record; rewrite <- !app_assoc; cbn [app];
    (eexists; split; [reflexivity|split; reflexivity]).
Qed.

(** X3.  [print_regs] always comes back and prints the lines of the report
    in one fixed order: 23 lines, one more (ASPSR) in the guarded level,
    the last three from the error registers of the kind of the core.  It
    leaves the guard, the counter, the context and every register but the
    L2C error status as they were. *)
Theorem print_regs_fixed_order regs (el12 : bool) m :
  exists m' o,
    print_regs regs el12 m = Next tt m'
    /\ console m' = (console m ++ o)%list
    /\ map fmt_of o = report_formats (cur_gl12 m) (ecore m)
    /\ List.length o = (if cur_gl12 m then 24%nat else 23%nat)
    /\ reported m m'.
Proof.
  destruct (print_regs_reported regs el12 m) as (m' & E & Hr).
  destruct (print_regs_console regs el12 m) as (o & Hc & Hf & Hl).
  rewrite E in Hc. cbn [final] in Hc.
  exists m', o. repeat split; try assumption; apply Hr.
Qed.



Lemma shift_mask_16 z :
  0 <= z < 2 ^ 32 ->
  0 <= Z.shiftr z 16 < 2 ^ 16
  /\ 0 <= Z.land z 0xffff < 2 ^ 16
  /\ Z.shiftr z 16 * 2 ^ 16 + Z.land z 0xffff = z.
Proof.
  intros H. rewrite Z.shiftr_div_pow2 by lia.
  change 0xffff with (Z.ones 16). rewrite Z.land_ones by lia.
  pose proof (Z.div_mod z (2 ^ 16) ltac:(lia)) as D.
  pose proof (Z.mod_pos_bound z (2 ^ 16) ltac:(lia)) as B.
  assert (0 <= z / 2 ^ 16 < 2 ^ 16).
  { split; [apply Z.div_pos; lia|].
    apply Z.div_lt_upper_bound; lia. }
  lia.
Qed.

(** X6.  [exc_irq] always comes back having printed two lines and changed
    nothing else; the type and the number of its second line are the high
    and the low half of the 32-bit word read from the interrupt controller
    at [0x23b102004], and together give that word back. *)
Theorem exc_irq_reports_only regs m :
  0 <= mem32 m 0x23b102004 < 2 ^ 32 ->
  exists src type num,
    get_exception_source false m = Next src m
    /\ exc_irq regs m =
       Next tt
         (emit (Printf " type: %d num: %d mpidr: %lx\n"
                       [Int type; Int num; Int (sysregs m MPIDR_EL1)])
               (emit (Printf "Exception: IRQ (from %s)\n" [Str src]) m))
    /\ 0 <= type < 2 ^ 16 /\ 0 <= num < 2 ^ 16
    /\ type * 2 ^ 16 + num = mem32 m 0x23b102004.
Proof.
  intros H.
  destruct (shift_mask_16 _ H) as (Ht & Hn & E).
  eexists. exists (Z.shiftr (mem32 m 0x23b102004) 16),
    (Z.land (mem32 m 0x23b102004) 0xffff).
  split; [apply get_exception_source_eq|].
  split; [|repeat split; try apply Ht; try apply Hn; exact E].
  unfold exc_irq. unfold bind at 1. rewrite get_exception_source_eq.
  run. reflexivity.
Qed.

End ReportMore.

(** ** The synchronous handler as a whole *)

Section SyncMore.

Context {P : Platform}.

(** The three ends of the guard engine. *)
Lemma guard_outcome m :
  match exc_sync_guard m with
  | Next _ m' =>
      exc_count m' = s32 (exc_count m + 1)
      /\ (guard_type m = GUARD_SKIP \/ guard_type m = GUARD_MARK
          \/ guard_type m = GUARD_RETURN)
      /\ (exc_guard m' = exc_guard m
          \/ guard_type m = GUARD_RETURN /\ exc_guard m' = GUARD_OFF)
  | Done _ => False
  | Halt m' =>
      m' = m
      /\ guard_type m <> GUARD_SKIP /\ guard_type m <> GUARD_MARK
      /\ guard_type m <> GUARD_RETURN
  end.
Proof.
  unfold guard_type, exc_sync_guard. run.
  destruct (Z.eqb_spec (Z.land (exc_guard m) GUARD_TYPE_MASK) GUARD_SKIP);
    [|destruct (Z.eqb_spec (Z.land (exc_guard m) GUARD_TYPE_MASK) GUARD_MARK);
      [|destruct (Z.eqb_spec (Z.land (exc_guard m) GUARD_TYPE_MASK)
                             GUARD_RETURN)]];
    run;
    try (destruct (Z.land (exc_guard m) GUARD_SILENT =? 0));
    try (destruct (Z.land GUARD_OFF GUARD_SILENT =? 0));
    run; auto 10.
Qed.

Lemma redirected_cases m :
  redirected m = true ->
  el0_clean_return m = true
  \/ (el0_clean_return m = false /\ hypercall m = true /\ hvc_imm m = 0).
Proof.
  unfold redirected. intros H.
  destruct (el0_clean_return m); [now left|right].
  cbn [orb] in H. apply andb_true_iff in H as [Hh Hz].
  apply Z.eqb_eq in Hz. auto.
Qed.

(** X7.  The three ends of [exc_sync].  It returns at once exactly for the
    two cooperative returns, with the counter, the guard, the context and
    the console as they were.  Otherwise it either recovers, in one of the
    modes SKIP, MARK and RETURN, and then counts one exception, or it
    reboots the machine, in every other mode, and then the counter, the
    guard and the context are as they were: the counter counts the
    recovered faults and nothing else. *)
Theorem exc_count_counts_recoveries regs m :
  match exc_sync regs m with
  | Next _ m' =>
      redirected m = false
      /\ exc_count m' = s32 (exc_count m + 1)
      /\ (guard_type m = GUARD_SKIP \/ guard_type m = GUARD_MARK
          \/ guard_type m = GUARD_RETURN)
  | Done m' =>
      redirected m = true
      /\ exc_count m' = exc_count m /\ exc_guard m' = exc_guard m
      /\ ctx m' = ctx m /\ console m' = console m
  | Halt m' =>
      redirected m = false
      /\ exc_count m' = exc_count m /\ exc_guard m' = exc_guard m
      /\ ctx m' = ctx m
      /\ guard_type m <> GUARD_SKIP /\ guard_type m <> GUARD_MARK
      /\ guard_type m <> GUARD_RETURN
  end.
Proof.
  destruct (redirected m) eqn:Hr.
  - destruct (redirected_cases m Hr) as [H0|(H0 & Hh & Hz)].
    + rewrite (exc_sync_done regs m _ (relay_el0_return m H0)).
      repeat split.
    + rewrite (exc_sync_done regs m _ (relay_clean_el1_return m Hh Hz)).
      repeat split.
  - destruct (exc_sync_guarded regs m Hr)
      as (m2 & E & Hg & Hc & Hctx & _).
    rewrite E. pose proof (guard_outcome m2) as Ho.
    assert (T : guard_type m2 = guard_type m)
      by (unfold guard_type; now rewrite Hg).
    destruct (exc_sync_guard m2) as [[] m'|m'|m'].
    + destruct Ho as (Hn & Ht & _). rewrite <- T, <- Hc. auto.
    + contradiction.
    + destruct Ho as (-> & H1 & H2 & H3). rewrite <- T. auto 10.
Qed.

(** X8.  [exc_sync] never arms the guard: when it is over [exc_guard] is
    what it was, unless the mode was RETURN, when it may be [GUARD_OFF]
    instead. *)
Theorem exc_sync_never_arms regs m :
  exc_guard (final (exc_sync regs m)) = exc_guard m
  \/ (guard_type m = GUARD_RETURN
      /\ exc_guard (final (exc_sync regs m)) = GUARD_OFF).
Proof.
  destruct (redirected m) eqn:Hr.
  - left. pose proof (exc_count_counts_recoveries regs m) as H.
    destruct (exc_sync regs m) as [[] m'|m'|m']; cbn [final].
    + destruct H as (H & _). congruence.
    + apply H.
    + destruct H as (H & _). congruence.
  - destruct (exc_sync_guarded regs m Hr) as (m2 & E & Hg & _).
    rewrite E. pose proof (guard_outcome m2) as Ho.
    assert (T : guard_type m2 = guard_type m)
      by (unfold guard_type; now rewrite Hg).
    destruct (exc_sync_guard m2) as [[] m'|m'|m']; cbn [final].
    + destruct Ho as (_ & _ & [H|[H1 H2]]).
      * left. congruence.
      * right. split; congruence.
    + contradiction.
    + destruct Ho as (-> & _). now left.
Qed.

(** X9.  A hypercall of the guest with immediate 0 is its clean return:
    the handler writes [0x09] (EL2h) to [SPSR_EL2] and the guest's return
    thunk to [ELR_EL2] and returns at once, with nothing printed and the
    guard, the counter and the context as they were. *)
Theorem el1_clean_return_bypasses regs m :
  hypercall m = true -> hvc_imm m = 0 ->
  exists m',
    exc_sync regs m = Done m'
    /\ peek SPSR_EL2 m' = 0x09 /\ peek ELR_EL2 m' = el1_ret
    /\ console m' = console m
    /\ exc_guard m' = exc_guard m /\ exc_count m' = exc_count m
    /\ ctx m' = ctx m.
Proof.
  intros Hh Hz. eexists.
  split; [apply exc_sync_done, relay_clean_el1_return; assumption|].
  unfold peek. cbn [sysregs set_sysregs console exc_guard exc_count ctx cell].
  rewrite upd_reg_same, upd_reg_other by discriminate.
  rewrite upd_reg_same. repeat split.
Qed.

(** X10.  A fault taken directly with the guard in none of the recovering
    modes and the silence flag clear is reported in full and then the
    machine is rebooted: the console gains the banner and after it the
    lines of the report in their order, and the counter, the guard, the
    context and the return address are as they were. *)
Theorem fatal_fault_reported_in_full regs m :
  el0_clean_return m = false -> hypercall m = false -> silent m = false ->
  guard_type m <> GUARD_SKIP -> guard_type m <> GUARD_MARK ->
  guard_type m <> GUARD_RETURN ->
  exists h o,
    exc_sync regs m = Halt h
    /\ console h = (console m ++ Puts "Exception: SYNC" :: o)%list
    /\ map fmt_of o = report_formats (cur_gl12 m) (ecore m)
    /\ exc_count h = exc_count m /\ exc_guard h = exc_guard m
    /\ ctx h = ctx m /\ peek ELR_EL1 h = peek ELR_EL1 m.
Proof.
  intros H0 Hh Hs H1 H2 H3.
  pose proof (relay_direct m H0 Hh) as E. rewrite Hs in E.
  rewrite (exc_sync_next regs m _ _ E).
  unfold bind, exc_sync_report. run.
  assert (S : (Z.land (exc_guard m) GUARD_SILENT =? 0) = true).
  { unfold silent in Hs. now apply negb_false_iff in Hs. }
  rewrite S. run.
  destruct (print_regs_fixed_order regs false (emit (Puts "Exception: SYNC") m))
    as (m2 & o & E2 & Hc & Hf & _ & Hr).
  rewrite E2.
  destruct Hr as (_ & _ & _ & _ & Hctx & Hg & Hcnt & Hreg & _).
  cbn [ctx exc_guard exc_count sysregs console cur_gl12 ecore emit] in *.
  rewrite guard_fatal by (unfold guard_type in *; now rewrite Hg).
  exists m2, o. split; [reflexivity|].
  split; [rewrite Hc, <- app_assoc; reflexivity|].
  split; [exact Hf|].
  repeat split; try assumption.
  unfold peek. apply Hreg. cbn. discriminate.
Qed.

(** X11.  When the [_EL1] names reach the EL2 registers, a fault of the
    guest handed down under SKIP is resolved on the guest's registers: the
    handler comes back with [ELR_EL2] four bytes after the address in the
    guest's [ELR_EL12] and [SPSR_EL2] equal to the guest's [SPSR_EL12], so
    that the exception return resumes the guest after its faulting
    instruction. *)
Theorem relayed_fault_resumes_guest regs m :
  redirect EL1 = redirect EL2 ->
  relayed m = true ->
  guard_type m = GUARD_SKIP ->
  exists m',
    exc_sync regs m = Next tt m'
    /\ peek ELR_EL2 m' = u64 (peek ELR_EL12 m + 4)
    /\ peek SPSR_EL2 m' = peek SPSR_EL12 m.
Proof.
  intros Hv R Ht.
  pose proof (relay_relayed m R) as E. cbv zeta in E.
  rewrite (exc_sync_next regs m _ _ E).
  match goal with
  | |- context [(exc_sync_report regs true;; exc_sync_guard) ?m1] =>
      destruct (report_then_guard regs true m1) as (m2 & E2 & Hr & _);
      set (n := m1) in *
  end.
  rewrite E2.
  assert (Hg : exc_guard m2 = exc_guard m).
  { destruct Hr as (_ & _ & _ & _ & _ & Hg & _). rewrite Hg. unfold n.
    cbn [exc_guard set_sysregs]. destruct (silent m); reflexivity. }
  rewrite guard_skip by (unfold guard_type in *; now rewrite Hg).
  eexists. split; [reflexivity|].
  assert (He : peek ELR_EL1 m2 = peek ELR_EL12 m).
  { rewrite (reported_peek _ _ ELR_EL1 Hr) by (cbn; discriminate).
    unfold peek, n. cbn [sysregs set_sysregs cell]. rewrite Hv.
    apply upd_reg_same. }
  assert (Hs : peek SPSR_EL2 m2 = peek SPSR_EL12 m).
  { rewrite (reported_peek _ _ SPSR_EL2 Hr) by (cbn; discriminate).
    unfold peek, n. cbn [sysregs set_sysregs cell].
    rewrite upd_reg_other by discriminate. apply upd_reg_same. }
  split.
  - assert (A : forall x, peek ELR_EL2 x = peek ELR_EL1 x)
      by (intros x; unfold peek; cbn [cell]; now rewrite Hv).
    now rewrite A, recovered_elr, He.
  - unfold recovered, peek. cbn [sysregs set_sysregs cell].
    rewrite upd_reg_other by discriminate.
    unfold peek in Hs. cbn [cell] in Hs.
    destruct (silent (set_exc_count (s32 (exc_count m2 + 1)) m2));
      cbn [sysregs set_exc_count emit]; exact Hs.
Qed.

End SyncMore.

(** ** The FIQ handler and the initialisation *)

Lemma upd_ctl_same f c v : upd_ctl f c v c = v.
Proof. unfold upd_ctl. now destruct (ctlreg_eq_dec c c). Qed.

Lemma upd_ctl_other f c v r : r <> c -> upd_ctl f c v r = f r.
Proof. unfold upd_ctl. intros H. now destruct (ctlreg_eq_dec r c). Qed.

#[global] Opaque upd_ctl.

(** Running the statements of a handler on a system given by its fields. *)
Ltac run_sys :=
  cbv beta iota zeta delta
      [sbind spure lift ctl_mrs ctl_msr reg_clr mask_timer sfinal ran_through
       core ctlregs
       bind pure when ret_void andM notM not_silent mrs msr sysop
       in_el2 in_gl12 is_ecore read32 regs_load regs_store load_exc_guard
       store_exc_guard load_exc_count store_exc_count printf uart_puts
       flush_and_reboot final returns
       sysregs cur_el2 cur_gl12 ecore mem32 ctx exc_guard exc_count console
       set_sysregs set_ctx set_exc_guard set_exc_count emit].

Section Fiq.

Context {P : Platform} {B : Board}.

Ltac fiq_cases :=
  repeat first
    [ rewrite upd_ctl_same
    | rewrite upd_ctl_other by discriminate
    | progress run_sys
    | match goal with
      | |- context [if ?c then _ else _] => destruct c eqn:?
      end ].

(** The performance monitors: they log their own two lines at most and
    write no register but their own two. *)
Lemma exc_fiq_pmc_spec s :
  exists s' o,
    exc_fiq_pmc s = SNext tt s'
    /\ console (core s') = (console (core s) ++ o)%list
    /\ NoDup o
    /\ (forall line, In line o ->
                     line = Puts "  PMC IRQ, masking"
                     \/ line = Puts "  UPMC IRQ, masking")
    /\ (forall r, r <> SYS_IMP_APL_PMCR0 -> r <> SYS_IMP_APL_UPMCR0 ->
                  ctlregs s' r = ctlregs s r)
    /\ sysregs (core s') = sysregs (core s)
    /\ cur_el2 (core s') = cur_el2 (core s)
    /\ exc_guard (core s') = exc_guard (core s)
    /\ exc_count (core s') = exc_count (core s)
    /\ ctx (core s') = ctx (core s).
Proof.
  destruct s as [[sr el2 gl ec mem cx g c con] ctl].
  unfold exc_fiq_pmc. run_sys.
  repeat first
    [ rewrite upd_ctl_same
    | rewrite upd_ctl_other by discriminate
    | progress run_sys
    | match goal with
      | |- context [if ?b then _ else _] => destruct b eqn:?
      end ].
  all: (do 2 eexists; split; [reflexivity|]).
  all: cbv beta iota delta [core ctlregs console sysregs cur_el2 exc_guard
                            exc_count ctx].
  all: (split; [rewrite <- ?app_assoc; cbn [app];
                first [reflexivity | symmetry; apply app_nil_r]|]).
  all: (split; [repeat (apply NoDup_cons; [cbn [In]; intuition discriminate|]);
                apply NoDup_nil|]).
  all: (split; [intros line H; cbn [In] in H;
                repeat (destruct H as [H|H]; [subst line; auto|]);
                contradiction|]).
  all: (split; [|repeat split]).
  all: intros r H1 H2; rewrite ?upd_ctl_other by assumption; reflexivity.
Qed.

(** What [exc_fiq] does, in one statement. *)
Lemma exc_fiq_spec regs s :
  exists s' src o,
    exc_fiq regs s = SNext tt s'
    /\ get_exception_source false (core s) = Next src (core s)
    /\ console (core s') =
       (console (core s)
        ++ Printf "Exception: FIQ (from %s)\n" [Str src] :: o)%list
    /\ NoDup o
    /\ (forall r line,
          timer_line r = Some line ->
          (In line o <-> examined s r = true /\ ctlregs s r = 5)
          /\ ctlregs s' r =
             (if examined s r && (ctlregs s r =? 5) then 7 else ctlregs s r))
    /\ sysregs (core s') = sysregs (core s)
    /\ cur_el2 (core s') = cur_el2 (core s)
    /\ exc_guard (core s') = exc_guard (core s)
    /\ exc_count (core s') = exc_count (core s)
    /\ ctx (core s') = ctx (core s).
Proof.
  destruct s as [[sr el2 gl ec mem cx g c con] ctl].
  pose proof (get_exception_source_eq false
                (mkMachine sr el2 gl ec mem cx g c con)) as Esrc.
  match type of Esrc with _ = Next ?x _ => set (src := x) in * end.
  clearbody src.
  unfold exc_fiq. unfold sbind at 1. unfold lift at 1.
  cbn [core]. rewrite Esrc.
  destruct (ctl CNTP_CTL_EL0 =? 5) eqn:P0, (ctl CNTV_CTL_EL0 =? 5) eqn:V0,
    (ctl CNTP_CTL_EL02 =? 5) eqn:P2, (ctl CNTV_CTL_EL02 =? 5) eqn:V2, el2;
    run_sys;
    repeat first
      [ rewrite upd_ctl_same
      | rewrite upd_ctl_other by discriminate
      | rewrite P0 | rewrite V0 | rewrite P2 | rewrite V2
      | progress run_sys ].
  all: match goal with
       | |- context [exc_fiq_pmc ?st] =>
           destruct (exc_fiq_pmc_spec st)
             as (s' & o2 & E & Hc & Hnd & Hin & Hctl & Hsr & Hel & Hg & Hcnt
                 & Hctx);
           rewrite E
       end.
  all: destruct s' as [[sr' el2' gl' ec' mem' cx' g' c' con'] ctl'].
  all: cbn [core ctlregs console sysregs cur_el2 exc_guard exc_count ctx]
         in Hc, Hctl, Hsr, Hel, Hg, Hcnt, Hctx.
  all: (do 3 eexists; split; [reflexivity|]).
  all: cbv beta iota delta [core ctlregs console sysregs cur_el2 exc_guard
                            exc_count ctx].
  all: (split; [reflexivity|]).
  all: (split; [rewrite Hc, <- ?app_assoc; cbn [app]; reflexivity|]).
  all: (split;
        [repeat (apply NoDup_cons;
                 [cbn [In]; intros H;
                  repeat (destruct H as [H|H]; [discriminate H|]);
                  destruct (Hin _ H) as [H'|H']; discriminate H'|]);
         exact Hnd|]).
  all: (split; [|repeat split; assumption]).
  all: intros r line Hl.
  all: destruct r; cbn [timer_line] in Hl; inversion Hl; subst line.
  all: cbn [examined core cur_el2 ctlregs andb].
  all: rewrite Hctl by discriminate.
  all: rewrite ?upd_ctl_same, ?upd_ctl_other by discriminate.
  all: rewrite ?P0, ?V0, ?P2, ?V2; cbn [andb].
  all: (split; [|reflexivity]).
  all: cbn [In].
  all: (split;
     [ intros H; repeat (destruct H as [H|H]; [try discriminate H|]);
       first [ split; [reflexivity|now apply Z.eqb_eq]
             | destruct (Hin _ H) as [H'|H']; discriminate H' ]
     | intros [H1 H2];
       first [ discriminate H1
             | apply Z.eqb_eq in H2; congruence
             | repeat first [left; reflexivity | right] ] ]).
Qed.

(** X12.  [exc_fiq] masks the pending timers it looks at and no other:
    a timer control register it examines that reads [0x5] is written with
    [7] and logged by one line; one that reads anything else is neither
    written nor logged; and the two timers behind the [_EL02] names are
    neither written nor logged on a core that is not at EL2, whatever they
    read.  No line is logged twice. *)
Theorem exc_fiq_masks_pending_timers regs s r line :
  timer_line r = Some line ->
  exists s' src o,
    exc_fiq regs s = SNext tt s'
    /\ console (core s') =
       (console (core s)
        ++ Printf "Exception: FIQ (from %s)\n" [Str src] :: o)%list
    /\ NoDup o
    /\ (examined s r = true -> ctlregs s r = 5 ->
        ctlregs s' r = 7 /\ In line o)
    /\ (examined s r = true -> ctlregs s r <> 5 ->
        ctlregs s' r = ctlregs s r /\ ~ In line o)
    /\ (examined s r = false ->
        ctlregs s' r = ctlregs s r /\ ~ In line o).
Proof.
  intros Hl.
  destruct (exc_fiq_spec regs s)
    as (s' & src & o & E & _ & Hc & Hnd & Ht & _).
  destruct (Ht r line Hl) as [Hin Hv].
  exists s', src, o. split; [exact E|]. split; [exact Hc|].
  split; [exact Hnd|]. split; [|split].
  - intros He H5. rewrite Hv, He, H5. cbn. split; [reflexivity|].
    apply Hin. now split.
  - intros He H5. rewrite Hv, He.
    destruct (Z.eqb_spec (ctlregs s r) 5) as [E5|_]; [contradiction|].
    split; [reflexivity|]. intros H. apply Hin in H. tauto.
  - intros He. rewrite Hv, He. split; [reflexivity|].
    intros H. apply Hin in H. destruct H as [H _]. congruence.
Qed.

(** X13.  After [exc_fiq] no timer it examines reads [0x5]: a second run
    with nothing new pending writes none of the four timer control
    registers and logs no timer. *)
Theorem exc_fiq_second_run_masks_nothing regs s :
  exists s1 s2 src o,
    exc_fiq regs s = SNext tt s1
    /\ exc_fiq regs s1 = SNext tt s2
    /\ console (core s2) =
       (console (core s1)
        ++ Printf "Exception: FIQ (from %s)\n" [Str src] :: o)%list
    /\ forall r line,
         timer_line r = Some line ->
         ctlregs s2 r = ctlregs s1 r /\ ~ In line o.
Proof.
  destruct (exc_fiq_spec regs s)
    as (s1 & src1 & o1 & E1 & _ & _ & _ & Ht1 & _ & Hel & _).
  destruct (exc_fiq_spec regs s1)
    as (s2 & src2 & o2 & E2 & _ & Hc2 & _ & Ht2 & _).
  exists s1, s2, src2, o2. split; [exact E1|]. split; [exact E2|].
  split; [exact Hc2|].
  intros r line Hl.
  destruct (Ht1 r line Hl) as [_ Hv1]. destruct (Ht2 r line Hl) as [Hin2 Hv2].
  assert (Hex : examined s1 r = examined s r).
  { destruct r; cbn [examined]; try reflexivity; exact Hel. }
  assert (N5 : examined s1 r && (ctlregs s1 r =? 5) = false).
  { rewrite Hex, Hv1.
    destruct (examined s r); [|reflexivity]. cbn [andb].
    destruct (Z.eqb_spec (ctlregs s r) 5) as [E5|N]; [reflexivity|].
    now apply Z.eqb_neq. }
  rewrite Hv2, N5. split; [reflexivity|].
  intros H. apply Hin2 in H as [He H5].
  rewrite He in N5. cbn [andb] in N5. apply Z.eqb_neq in N5. contradiction.
Qed.

(** X14.  [exc_fiq] always runs to its end and leaves the state of the
    synchronous path alone: the system registers of the core, the guard,
    the counter and the context are as they were. *)
Theorem exc_fiq_leaves_guard_state regs s :
  exists s',
    exc_fiq regs s = SNext tt s'
    /\ sysregs (core s') = sysregs (core s)
    /\ exc_guard (core s') = exc_guard (core s)
    /\ exc_count (core s') = exc_count (core s)
    /\ ctx (core s') = ctx (core s).
Proof.
  destruct (exc_fiq_spec regs s)
    as (s' & src & o & E & _ & _ & _ & _ & Hsr & _ & Hg & Hc & Hx).
  exists s'. repeat split; assumption.
Qed.

Lemma hcr_value_bits i :
  Z.testbit (Z.lor (BIT 41)
               (Z.lor (BIT 40)
                  (Z.lor (BIT 37)
                     (Z.lor (BIT 34)
                        (Z.lor (BIT 31)
                           (Z.lor (BIT 27)
                              (Z.lor (BIT 5) (Z.lor (BIT 4) (BIT 3)))))))))
            i = true
  <-> In i hcr_bits.
Proof.
  match goal with |- Z.testbit ?v _ = _ <-> _ => set (hcr := v) end.
  assert (Hv : hcr = 0x32488000038) by (vm_compute; reflexivity).
  assert (Hlow :
    forallb (fun n => Bool.eqb (Z.testbit hcr (Z.of_nat n))
                               (existsb (Z.eqb (Z.of_nat n)) hcr_bits))
            (seq 0 42) = true) by (vm_compute; reflexivity).
  rewrite forallb_forall in Hlow.
  destruct (Z.lt_ge_cases i 0) as [Hn|Hp].
  - rewrite Z.testbit_neg_r by exact Hn. unfold hcr_bits. cbn [In].
    split; [discriminate|lia].
  - destruct (Z.lt_ge_cases i 42) as [Hs|Hb].
    + specialize (Hlow (Z.to_nat i)).
      rewrite Z2Nat.id in Hlow by exact Hp.
      assert (Hin : In (Z.to_nat i) (seq 0 42)) by (apply in_seq; lia).
      apply Hlow, Bool.eqb_prop in Hin. rewrite Hin.
      rewrite existsb_exists. split.
      * intros (x & Hx & Ex). apply Z.eqb_eq in Ex. now subst x.
      * intros Hx. exists i. split; [exact Hx|apply Z.eqb_refl].
    + rewrite Z.bits_above_log2.
      * unfold hcr_bits. cbn [In]. split; [discriminate|lia].
      * rewrite Hv. lia.
      * rewrite Hv. change (Z.log2 0x32488000038) with 41. lia.
Qed.

(** X15.  [exception_initialize] sets the vector base and unmasks SError,
    IRQ and FIQ at every level, and touches the hypervisor configuration at
    EL2 only: on a core that is not at EL2 no other register is written; at
    EL2 the guest's vector base is set and [HCR_EL2] is written with
    exactly the bits 3, 4, 5, 27, 31, 34, 37, 40 and 41, E2H (34) among
    them.  [exception_shutdown] after it masks the three again and keeps
    the vector base.  Neither touches the state of the synchronous path. *)
Theorem exception_initialize_then_shutdown s :
  exists s1 s2,
    exception_initialize s = SNext tt s1
    /\ exception_shutdown s1 = SNext tt s2
    /\ core s1 = core s /\ core s2 = core s
    /\ ctlregs s1 VBAR_EL1 = _vectors_start /\ ctlregs s1 DAIF = 0
    /\ ctlregs s2 VBAR_EL1 = _vectors_start /\ ctlregs s2 DAIF = 0x1c0
    /\ (cur_el2 (core s) = false ->
        forall r, r <> VBAR_EL1 -> r <> DAIF -> ctlregs s1 r = ctlregs s r)
    /\ (cur_el2 (core s) = true ->
        ctlregs s1 VBAR_EL12 = _el1_vectors_start
        /\ forall i, Z.testbit (ctlregs s1 HCR_EL2) i = true
                     <-> In i hcr_bits).
Proof.
  destruct s as [[sr el2 gl ec mem cx g c con] ctl].
  unfold exception_initialize, exception_shutdown.
  destruct el2; run_sys; do 2 eexists;
    (split; [reflexivity|]); (split; [reflexivity|]);
    cbv beta iota delta [core ctlregs cur_el2];
    rewrite ?upd_ctl_same, ?upd_ctl_other by discriminate;
    repeat (split; [reflexivity|]); split.
  - discriminate.
  - intros _. split; [reflexivity|]. apply hcr_value_bits.
  - intros _ r H1 H2. now rewrite !upd_ctl_other by assumption.
  - discriminate.
Qed.

End Fiq.

(** ** Probing under the silence flag *)

Section SilenceMore.

Context {P : Platform}.

(** X16.  A probe under the silence flag leaves no trace on the console:
    a fault resolved in mode SKIP or MARK with the flag set, and not come
    as an unknown hypercall, prints nothing, counts one exception and
    leaves the guard armed and silent for the next probe. *)
Theorem silent_probe_leaves_no_trace regs m :
  GUARD_SKIP <> GUARD_MARK ->
  silent m = true -> redirected m = false -> unknown_hvc m = false ->
  guard_type m = GUARD_SKIP \/ guard_type m = GUARD_MARK ->
  exists m',
    exc_sync regs m = Next tt m'
    /\ console m' = console m
    /\ exc_count m' = s32 (exc_count m + 1)
    /\ exc_guard m' = exc_guard m.
Proof.
  intros Hd Hs Hr Hu Ht.
  destruct (exc_sync_guarded regs m Hr)
    as (m2 & E & Hg & Hc & _ & _ & _ & _ & _ & _ & Hq).
  assert (S2 : silent m2 = true) by (unfold silent in *; now rewrite Hg).
  rewrite E. destruct Ht as [Ht|Ht].
  - rewrite guard_skip by (unfold guard_type in *; now rewrite Hg).
    eexists. split; [reflexivity|].
    rewrite recovered_console, recovered_count, recovered_guard, S2, Hc, Hg.
    repeat split. now apply Hq.
  - rewrite guard_mark
      by (try assumption; unfold guard_type in *; now rewrite Hg).
    eexists. split; [reflexivity|].
    rewrite recovered_console, recovered_count, recovered_guard.
    change (silent (set_ctx _ m2)) with (silent m2).
    cbn [console exc_count exc_guard set_ctx].
    rewrite S2, Hc, Hg. repeat split. now apply Hq.
Qed.


End SilenceMore.

(** ** The further theorems at concrete machines *)

Module Instances.

Import Sample Bench.

(** X2 at the class of a data abort. *)
Lemma ec_label_identifies_class_witness :
  at_index ec_table 0x25 = Some "data abort (current)" /\ 0x25 = 0x25.
Proof.
  assert (E : at_index ec_table 0x25 = Some "data abort (current)")
    by reflexivity.
  split; [exact E|].
  apply (ec_label_identifies_class 0x25 0x25 "data abort (current)");
    try lia; exact E.
Defined.

(** X6 at an interrupt of type 1 and number [0x2a]. *)
Lemma exc_irq_reports_only_witness :
  exists src type num,
    @exc_irq at_el2 regs irq_pending =
    Next tt
      (emit (Printf " type: %d num: %d mpidr: %lx\n" [Int type; Int num; Int 0])
            (emit (Printf "Exception: IRQ (from %s)\n" [Str src]) irq_pending))
    /\ type * 2 ^ 16 + num = 0x1002a.
Proof.
  assert (H : 0 <= mem32 irq_pending 0x23b102004 < 2 ^ 32) by (simpl; lia).
  destruct (@exc_irq_reports_only at_el2 regs irq_pending H)
    as (src & type & num & _ & E & _ & _ & Hsum).
  exists src, type, num. split; [exact E|exact Hsum].
Defined.

(** X9 at the hypercall with immediate 0. *)
Lemma el1_clean_return_bypasses_witness :
  exists m',
    @exc_sync at_el2 regs el1_return = Done m'
    /\ @peek at_el2 SPSR_EL2 m' = 0x09
    /\ @peek at_el2 ELR_EL2 m' = @el1_ret at_el2
    /\ console m' = [].
Proof.
  assert (H1 : @hypercall at_el2 el1_return = true) by (vm_compute; reflexivity).
  assert (H2 : @hvc_imm at_el2 el1_return = 0) by (vm_compute; reflexivity).
  destruct (@el1_clean_return_bypasses at_el2 regs el1_return H1 H2)
    as (m' & E & Hs & He & Hc & _).
  exists m'. repeat split; assumption.
Defined.

(** X10 at a data abort with the guard off. *)
Lemma fatal_fault_reported_in_full_witness :
  exists h o,
    @exc_sync at_el2 regs off_fault = Halt h
    /\ console h = Puts "Exception: SYNC" :: o
    /\ map fmt_of o = report_formats false false
    /\ exc_count h = 0.
Proof.
  assert (H0 : @el0_clean_return at_el2 off_fault = false)
    by (vm_compute; reflexivity).
  assert (Hh : @hypercall at_el2 off_fault = false)
    by (vm_compute; reflexivity).
  assert (Hs : @silent at_el2 off_fault = false) by (vm_compute; reflexivity).
  assert (H1 : @guard_type at_el2 off_fault <> @GUARD_SKIP at_el2)
    by (vm_compute; discriminate).
  assert (H2 : @guard_type at_el2 off_fault <> @GUARD_MARK at_el2)
    by (vm_compute; discriminate).
  assert (H3 : @guard_type at_el2 off_fault <> @GUARD_RETURN at_el2)
    by (vm_compute; discriminate).
  destruct (@fatal_fault_reported_in_full at_el2 regs off_fault
              H0 Hh Hs H1 H2 H3)
    as (h & o & E & Hc & Hf & Hn & _).
  exists h, o. split; [exact E|]. split; [exact Hc|].
  split; [exact Hf|exact Hn].
Defined.

(** X11 at a fault of the guest handed down under SKIP. *)
Lemma relayed_fault_resumes_guest_witness :
  exists m',
    @exc_sync at_el2 regs relayed_fault = Next tt m'
    /\ @peek at_el2 ELR_EL2 m' = 0x820000104
    /\ @peek at_el2 SPSR_EL2 m' = 0x3c4.
Proof.
  assert (H1 : @redirect at_el2 EL1 = @redirect at_el2 EL2) by reflexivity.
  assert (H2 : @relayed at_el2 relayed_fault = true)
    by (vm_compute; reflexivity).
  assert (H3 : @guard_type at_el2 relayed_fault = @GUARD_SKIP at_el2)
    by (vm_compute; reflexivity).
  destruct (@relayed_fault_resumes_guest at_el2 regs relayed_fault H1 H2 H3)
    as (m' & E & He & Hs).
  exists m'. split; [exact E|]. split.
  - rewrite He. vm_compute. reflexivity.
  - rewrite Hs. vm_compute. reflexivity.
Defined.

(** X12 at the pending physical timer of a core at EL2, and at the timer
    behind [CNTP_CTL_EL02] on a core at EL1. *)
Lemma exc_fiq_masks_pending_timers_witness :
  (exists s' o,
      @exc_fiq at_el2 board regs two_timers = SNext tt s'
      /\ ctlregs s' CNTP_CTL_EL0 = 7
      /\ In (Puts "  PHYS timer IRQ, masking") o
      /\ NoDup o)
  /\ (exists s' o,
         @exc_fiq at_el1 board regs el1_timers = SNext tt s'
         /\ ctlregs s' CNTP_CTL_EL02 = 5
         /\ ~ In (Puts "  PHYS EL02 timer IRQ, masking") o).
Proof.
  split.
  - destruct (@exc_fiq_masks_pending_timers at_el2 board regs two_timers
                CNTP_CTL_EL0 (Puts "  PHYS timer IRQ, masking") eq_refl)
      as (s' & src & o & E & _ & Hnd & Hp & _).
    destruct Hp as [Hv Hin]; try reflexivity.
    exists s', o. repeat split; assumption.
  - destruct (@exc_fiq_masks_pending_timers at_el1 board regs el1_timers
                CNTP_CTL_EL02 (Puts "  PHYS EL02 timer IRQ, masking") eq_refl)
      as (s' & src & o & E & _ & _ & _ & _ & Hn).
    destruct Hn as [Hv Hin]; try reflexivity.
    exists s', o. split; [exact E|]. split; [rewrite Hv; reflexivity|exact Hin].
Defined.

(** X16 at a data abort under SKIP with the silence flag. *)
Lemma silent_probe_leaves_no_trace_witness :
  exists m',
    @exc_sync at_el2 regs silent_skip_fault = Next tt m'
    /\ console m' = [] /\ exc_count m' = 1 /\ exc_guard m' = 0x101.
Proof.
  assert (H1 : @GUARD_SKIP at_el2 <> @GUARD_MARK at_el2)
    by (vm_compute; discriminate).
  assert (H2 : @silent at_el2 silent_skip_fault = true)
    by (vm_compute; reflexivity).
  assert (H3 : @redirected at_el2 silent_skip_fault = false)
    by (vm_compute; reflexivity).
  assert (H4 : @unknown_hvc at_el2 silent_skip_fault = false)
    by (vm_compute; reflexivity).
  assert (H5 : @guard_type at_el2 silent_skip_fault = @GUARD_SKIP at_el2)
    by (vm_compute; reflexivity).
  destruct (@silent_probe_leaves_no_trace at_el2 regs silent_skip_fault
              H1 H2 H3 H4 (or_introl H5))
    as (m' & E & Hc & Hn & Hg).
  exists m'. repeat split; assumption.
Defined.


End Instances.
